(** * AWS Firehose HTTP receiver: the request handler

    A shallow embedding of
    [component/loki/source/aws_firehose/internal/handler.go] and the
    properties of its record decoder, label post-processing and batch
    loop.

    Go values are modelled as follows.  A [[]byte] is a [list byte], a Go
    [string] is a [string]; [string(b)] and [[]byte(s)] are
    [string_of_list_byte] and [list_byte_of_string].  A [model.LabelSet]
    (a Go map) is a [gmap string string]; a [labels.Labels] slice is a list
    of name/value pairs.  Everything the handler touches from the outside
    (response writer, sender, counters, logger, clock, the allocated
    [labels.Builder] objects) lives in one [World] record that is threaded
    through the code; a run-time panic is an outcome of its own. *)

From Stdlib Require Import NArith ZArith Lia Ascii DecimalString.
From Stdlib.Strings Require Import Byte.
From stdpp Require Import base option list strings gmap.

Local Open Scope N_scope.

Abbreviation bytes := (list byte).
Abbreviation string_of_bytes := String.string_of_list_byte.
Abbreviation bytes_of_string := String.list_byte_of_string.

(** ** encoding/base64, [StdEncoding]

    The handler calls [base64.StdEncoding.DecodeString]; the round-trip
    property also needs [EncodeToString].  Both follow the Go library:
    three bytes are packed big-endian in a 24-bit value that is cut in four
    6-bit digits; the decoder skips carriage returns and line feeds,
    requires padding, and (not being in strict mode) ignores the unused low
    bits of a padded quantum. *)
Module base64.

Definition encodeStd : string :=
  "ABCDEFGHIJKLMNOPQRSTUVWXYZabcdefghijklmnopqrstuvwxyz0123456789+/"%string.

Definition StdPadding : ascii := "="%char.

(** [enc.encode[i]] *)
Definition encodeChar (i : N) : ascii :=
  default "A"%char (String.get (N.to_nat i) encodeStd).

Fixpoint index_from (i : N) (c : ascii) (s : string) : option N :=
  match s with
  | EmptyString => None
  | String d s' => if Ascii.eqb c d then Some i else index_from (N.succ i) c s'
  end.

(** [enc.decodeMap[c]], with [None] for the entry [0xff] *)
Definition decodeMap (c : ascii) : option N := index_from 0 c encodeStd.

(** [byte(v)]: conversion of an unsigned integer to [byte] truncates *)
Definition byte_trunc (v : N) : byte :=
  default Byte.x00 (Byte.of_N (N.land v 255)).

Definition pack3 (a b c : byte) : N :=
  N.lor (N.lor (N.shiftl (Byte.to_N a) 16) (N.shiftl (Byte.to_N b) 8)) (Byte.to_N c).

Definition digit (val : N) (sh : N) : ascii :=
  encodeChar (N.land (N.shiftr val sh) 63).

(** [Encoding.Encode] *)
Fixpoint Encode (src : list byte) : list ascii :=
  match src with
  | [] => []
  | a :: b :: c :: rest =>
      let val := pack3 a b c in
      digit val 18 :: digit val 12 :: digit val 6 :: digit val 0 :: Encode rest
  | [a; b] =>
      let val := pack3 a b Byte.x00 in
      [digit val 18; digit val 12; digit val 6; StdPadding]
  | [a] =>
      let val := pack3 a Byte.x00 Byte.x00 in
      [digit val 18; digit val 12; StdPadding; StdPadding]
  end.

Definition EncodeToString (src : list byte) : string :=
  String.string_of_list_ascii (Encode src).

Definition unpack (d0 d1 d2 d3 : N) : N :=
  N.lor (N.lor (N.lor (N.shiftl d0 18) (N.shiftl d1 12)) (N.shiftl d2 6)) d3.

Definition is_newline (c : ascii) : bool :=
  Ascii.eqb c "010"%char || Ascii.eqb c "013"%char.

Definition is_nil {A} (l : list A) : bool :=
  match l with [] => true | _ => false end.

(** [Encoding.decodeQuantum], iterated over the input once the line
    breaks are gone *)
Fixpoint decodeQuanta (src : list ascii) : option (list byte) :=
  match src with
  | [] => Some []
  | c0 :: c1 :: c2 :: c3 :: rest =>
      match decodeMap c0, decodeMap c1 with
      | Some d0, Some d1 =>
          match decodeMap c2, decodeMap c3 with
          | Some d2, Some d3 =>
              let val := unpack d0 d1 d2 d3 in
              match decodeQuanta rest with
              | Some out =>
                  Some (byte_trunc (N.shiftr val 16) :: byte_trunc (N.shiftr val 8)
                          :: byte_trunc val :: out)
              | None => None
              end
          | Some d2, None =>
              let val := unpack d0 d1 d2 0 in
              if Ascii.eqb c3 StdPadding && is_nil rest
              then Some [byte_trunc (N.shiftr val 16); byte_trunc (N.shiftr val 8)]
              else None
          | None, _ =>
              let val := unpack d0 d1 0 0 in
              if Ascii.eqb c2 StdPadding && Ascii.eqb c3 StdPadding && is_nil rest
              then Some [byte_trunc (N.shiftr val 16)]
              else None
          end
      | _, _ => None
      end
  | _ => None
  end.

(** The sixty-four digits *)
Definition sextets : list N := N.of_nat <$> seq 0 64.

(** [Encoding.DecodeString]; [None] is a [CorruptInputError] *)
Definition DecodeString (s : string) : option (list byte) :=
  decodeQuanta (filter (λ c, negb (is_newline c)) (String.list_ascii_of_string s)).

End base64.


(** ** prometheus/model/labels: [Labels] and [Builder]

    A [Builder] is a Go object that [Set] mutates in place; the handler
    holds pointers to builders.  Builders therefore live in a heap (the
    [builders] field of the [World] below) and are addressed by their
    index; the functions here are the methods' effect on one builder. *)
Module labels.

Record Label := { Name : string; Value : string }.

Definition Labels := list Label.

Record Builder := { base : Labels; del : list string; add : Labels }.

(** [NewBuilder] / [Builder.Reset]: every label of the base with an empty
    value is scheduled for deletion *)
Definition NewBuilder (base : Labels) : Builder :=
  {| base := base;
     del := Name <$> filter (λ l, bool_decide (Value l = "")) base;
     add := [] |}.

(** [Builder.Del] *)
Definition Del (b : Builder) (n : string) : Builder :=
  {| base := base b;
     del := del b ++ [n];
     add := filter (λ a, bool_decide (Name a ≠ n)) (add b) |}.

Fixpoint set_add (add : Labels) (n v : string) : Labels :=
  match add with
  | [] => [ {| Name := n; Value := v |} ]
  | a :: add' =>
      if bool_decide (Name a = n) then {| Name := n; Value := v |} :: add'
      else a :: set_add add' n v
  end.

(** [Builder.Set]: an empty value means that the label is deleted *)
Definition Set_ (b : Builder) (n v : string) : Builder :=
  if bool_decide (v = "") then Del b n
  else {| base := base b; del := del b; add := set_add (add b) n v |}.

Fixpoint insert_sorted (l : Label) (ls : Labels) : Labels :=
  match ls with
  | [] => [l]
  | x :: ls' =>
      if String.leb (Name l) (Name x) then l :: x :: ls'
      else x :: insert_sorted l ls'
  end.

(** [sort.Sort(res)]: by name, bytewise *)
Definition sort (ls : Labels) : Labels := foldr insert_sorted [] ls.

(** [Builder.Labels(nil)] *)
Definition Labels_ (b : Builder) : Labels :=
  match del b, add b with
  | [], [] => base b
  | _, _ =>
      sort (filter (λ l, bool_decide (Name l ∉ del b)
                         && bool_decide (Name l ∉ (Name <$> add b))) (base b)
            ++ add b)
  end.

End labels.

(** ** The handler's data types *)

Module FirehoseRecord.
Record t := { Data : string }.
End FirehoseRecord.

Module FirehoseRequest.
Record t := {
  RequestID : string;
  Timestamp : Z;
  Records : list FirehoseRecord.t
}.
End FirehoseRequest.

Module CloudwatchLogEvent.
Record t := { ID : string; Timestamp : Z; Message : string }.
End CloudwatchLogEvent.

Module CloudwatchLogsRecord.
Record t := {
  Owner : string;
  LogGroup : string;
  LogStream : string;
  SubscriptionFilters : list string;
  MessageType : string;
  LogEvents : list CloudwatchLogEvent.t
}.
End CloudwatchLogsRecord.

Inductive RecordOrigin := OriginCloudwatchLogs | OriginDirectPUT | OriginUnknown.

(** [string(recordType)] *)
Definition RecordOrigin_string (o : RecordOrigin) : string :=
  match o with
  | OriginCloudwatchLogs => "cloudwatch-logs"
  | OriginDirectPUT => "direct-put"
  | OriginUnknown => "unknown"
  end.

(** Go [error] values the handler creates or passes on.  The text of a
    library error is the library's. *)
Inductive error :=
| CorruptInputError
| LibraryError (text : string)
| Errorf (prefix : string) (wrapped : error).

(** [loki.Entry], with the embedded [logproto.Entry] flattened *)
Module Entry.
Record t := {
  Labels : gmap string string;
  Timestamp : Z;
  Line : string
}.
End Entry.

(** The part of an [http.Request] that the handler reads: [Header.Get] and
    the body. *)
Module Request.
Record t := { Header_Get : string → string; Body : bytes }.
End Request.

(** [http.ResponseWriter]: the header map, the status once [WriteHeader]
    was called, and what was written. *)
Module ResponseWriter.
Record t := {
  Header : gmap string string;
  Status : option Z;
  Written : string
}.
Definition fresh : t := {| Header := ∅; Status := None; Written := "" |}.
End ResponseWriter.

Definition StatusOK : Z := 200.
Definition StatusBadRequest : Z := 400.

Definition gzipID1 : byte := Byte.x1f.
Definition gzipID2 : byte := Byte.x8b.
Definition gzipDeflate : byte := Byte.x08.

(** [fmt.Sprintf] of [%d] *)
Definition format_int (z : Z) : string := NilZero.string_of_int (Z.to_int z).

(** The double quote of the response templates *)
Definition dq : string := String "034"%char EmptyString.

(** [fmt.Sprintf(successResponseTemplate, firehoseID, timestamp)] *)
Definition successResponse (firehoseID : string) (timestamp : Z) : string :=
  "{" +:+ dq +:+ "requestId" +:+ dq +:+ ": " +:+ dq +:+ firehoseID +:+ dq
  +:+ ", " +:+ dq +:+ "timestamp" +:+ dq +:+ ": " +:+ format_int timestamp +:+ "}".

(** [fmt.Sprintf(errorResponseTemplate, firehoseID, timestamp, errMsg)] *)
Definition errorResponse (firehoseID : string) (timestamp : Z) (errMsg : string) : string :=
  "{" +:+ dq +:+ "requestId" +:+ dq +:+ ": " +:+ dq +:+ firehoseID +:+ dq
  +:+ ", " +:+ dq +:+ "timestamp" +:+ dq +:+ ": " +:+ format_int timestamp
  +:+ ", " +:+ dq +:+ "errorMessage" +:+ dq +:+ ": " +:+ dq +:+ errMsg +:+ dq +:+ "}".

(** ** Collaborators

    What the handler calls and the repository does not define: the gzip and
    JSON decoders of the Go library, the relabelling engine and the label
    grammar of Prometheus, the tenant label of the Loki client, the wall
    clock.  They are parameters of the development.

    A [gzip_Reader] is an opened stream (its header was read);
    [gzip_drain] is what reading it to the end yields: the bytes read and
    the error that stopped the reading, if any.  [json_Decode] is
    [json.NewDecoder(r).Decode] on the raw body or on an opened gzip stream.
    [time_Now n] is the clock reading (Unix nanoseconds) at the [n]-th call
    of [time.Now]. *)
Class Collaborators := {
  gzip_Reader : Type;
  gzip_NewReader : bytes → string + gzip_Reader;
  gzip_drain : gzip_Reader → bytes * option string;
  json_Decode : bytes + gzip_Reader → string + FirehoseRequest.t;
  json_Unmarshal : bytes → string + CloudwatchLogsRecord.t;
  relabel_Config : Type;
  relabel_Process : labels.Labels → list relabel_Config → labels.Labels * bool;
  LabelName_IsValid : string → bool;
  LabelValue_IsValid : string → bool;
  ReservedLabelTenantID : string;
  time_Now : nat → Z
}.

(** [Time.Unix] *)
Definition Time_Unix (t : Z) : Z := (t / 1000000000)%Z.

(** ** The world and the handler monad *)

Record World := {
  builders : list labels.Builder;
  sent : list Entry.t;
  errors : gmap string nat;
  recordsReceived : gmap string nat;
  logged : list (string * string);
  w : ResponseWriter.t;
  clock : nat
}.

Definition initial : World :=
  {| builders := []; sent := []; errors := ∅; recordsReceived := ∅;
     logged := []; w := ResponseWriter.fresh; clock := 0%nat |}.

Definition set_builders (f : list labels.Builder → list labels.Builder) (σ : World) : World :=
  {| builders := f (builders σ); sent := sent σ; errors := errors σ;
     recordsReceived := recordsReceived σ; logged := logged σ; w := w σ;
     clock := clock σ |}.

Definition set_sent (f : list Entry.t → list Entry.t) (σ : World) : World :=
  {| builders := builders σ; sent := f (sent σ); errors := errors σ;
     recordsReceived := recordsReceived σ; logged := logged σ; w := w σ;
     clock := clock σ |}.

Definition set_errors (f : gmap string nat → gmap string nat) (σ : World) : World :=
  {| builders := builders σ; sent := sent σ; errors := f (errors σ);
     recordsReceived := recordsReceived σ; logged := logged σ; w := w σ;
     clock := clock σ |}.

Definition set_recordsReceived (f : gmap string nat → gmap string nat) (σ : World) : World :=
  {| builders := builders σ; sent := sent σ; errors := errors σ;
     recordsReceived := f (recordsReceived σ); logged := logged σ; w := w σ;
     clock := clock σ |}.

Definition set_logged (f : list (string * string) → list (string * string)) (σ : World) : World :=
  {| builders := builders σ; sent := sent σ; errors := errors σ;
     recordsReceived := recordsReceived σ; logged := f (logged σ); w := w σ;
     clock := clock σ |}.

Definition set_w (f : ResponseWriter.t → ResponseWriter.t) (σ : World) : World :=
  {| builders := builders σ; sent := sent σ; errors := errors σ;
     recordsReceived := recordsReceived σ; logged := logged σ; w := f (w σ);
     clock := clock σ |}.

Definition set_clock (f : nat → nat) (σ : World) : World :=
  {| builders := builders σ; sent := sent σ; errors := errors σ;
     recordsReceived := recordsReceived σ; logged := logged σ; w := w σ;
     clock := f (clock σ) |}.

(** How a Go call ends: it returns, or it panics. *)
Inductive outcome (A : Type) :=
| Done (a : A)
| Panic (msg : string).
Arguments Done {A} a.
Arguments Panic {A} msg.

#[global] Instance outcome_ret : MRet outcome := λ A a, Done a.
#[global] Instance outcome_bind : MBind outcome := λ A B f m,
  match m with Done a => f a | Panic msg => Panic msg end.

Definition M (A : Type) : Type := World → outcome A * World.

#[global] Instance M_ret : MRet M := λ A a σ, (Done a, σ).
#[global] Instance M_bind : MBind M := λ A B f m σ,
  match m σ with
  | (Done a, σ') => f a σ'
  | (Panic msg, σ') => (Panic msg, σ')
  end.

Definition lift {A} (o : outcome A) : M A := λ σ, (o, σ).
Definition modify (f : World → World) : M unit := λ σ, (Done (), f σ).

(** [s[i]] on a slice: out of range is a run-time panic *)
Definition index (s : bytes) (i : nat) : outcome byte :=
  match s !! i with
  | Some b => Done b
  | None => Panic "index out of range"
  end.

(** [a && b], which evaluates [b] only when [a] holds *)
Definition andThen (a b : outcome bool) : outcome bool :=
  x ← a; if x : bool then b else mret false.

(** [counter.WithLabelValues(l).Inc()] *)
Definition Inc (l : string) (c : gmap string nat) : gmap string nat :=
  <[l := S (default 0%nat (c !! l))]> c.

Definition level_Info (msg : string) : M unit :=
  modify (set_logged (λ ls, ls ++ [("info"%string, msg)])).
Definition level_Error (msg : string) : M unit :=
  modify (set_logged (λ ls, ls ++ [("error"%string, msg)])).

(** [time.Now()] *)
Definition time_Now_ `{Collaborators} : M Z :=
  λ σ, (Done (time_Now (clock σ)), set_clock S σ).

(** [h.sender.Send(ctx, entry)] *)
Definition Send (e : Entry.t) : M unit := modify (set_sent (λ es, es ++ [e])).

(** Builders on the heap.  A pointer is the index at which [NewBuilder]
    stored the builder. *)
Definition NewBuilder (base : labels.Labels) : M nat :=
  λ σ, (Done (length (builders σ)),
        set_builders (λ bs, bs ++ [labels.NewBuilder base]) σ).

Definition Builder_Set (p : nat) (n v : string) : M unit :=
  λ σ, match builders σ !! p with
       | Some b => (Done (), set_builders <[p := labels.Set_ b n v]> σ)
       | None => (Panic "invalid memory address or nil pointer dereference", σ)
       end.

Definition Builder_Labels (p : nat) : M labels.Labels :=
  λ σ, match builders σ !! p with
       | Some b => (Done (labels.Labels_ b), σ)
       | None => (Panic "invalid memory address or nil pointer dereference", σ)
       end.

(** The response writer of net/http: headers count until the status line
    is written, the first [WriteHeader] wins, and a [Write] before any
    [WriteHeader] sends [200]. *)
Definition Header_Set (k v : string) : M unit :=
  modify (set_w (λ r,
    match ResponseWriter.Status r with
    | None => {| ResponseWriter.Header := <[k := v]> (ResponseWriter.Header r);
                 ResponseWriter.Status := None;
                 ResponseWriter.Written := ResponseWriter.Written r |}
    | Some _ => r
    end)).

Definition WriteHeader (status : Z) : M unit :=
  modify (set_w (λ r,
    match ResponseWriter.Status r with
    | None => {| ResponseWriter.Header := ResponseWriter.Header r;
                 ResponseWriter.Status := Some status;
                 ResponseWriter.Written := ResponseWriter.Written r |}
    | Some _ => r
    end)).

Definition Write (s : string) : M unit :=
  modify (set_w (λ r,
    {| ResponseWriter.Header := ResponseWriter.Header r;
       ResponseWriter.Status := Some (default StatusOK (ResponseWriter.Status r));
       ResponseWriter.Written := ResponseWriter.Written r +:+ s |})).

(** [http.Error(w, error, code)] *)
Definition http_Error (err : string) (code : Z) : M unit :=
  Header_Set "Content-Type" "text/plain; charset=utf-8";;
  Header_Set "X-Content-Type-Options" "nosniff";;
  WriteHeader code;;
  Write (err +:+ String "010"%char EmptyString).

(** ** The handler *)

(** [Handler]: the sender, the counters and the logger are the
    corresponding fields of the [World]. *)
Record Handler `{Collaborators} := { relabelRules : list relabel_Config }.

(** [for _, x := range xs { body }] *)
Fixpoint forEach {A} (xs : list A) (body : A → M unit) : M unit :=
  match xs with
  | [] => mret ()
  | x :: xs' => body x;; forEach xs' body
  end.

Section handler.
Context `{Collaborators} (h : Handler).

(** [io.Copy(bufio.NewWriter(&b), gzipReader)].  [io.Copy] hands the
    copy to the destination's [ReadFrom]; a [bufio.Writer] with nothing
    buffered hands it on to its underlying writer when that one has a
    [ReadFrom], which [bytes.Buffer] has.  The stream is therefore
    drained into [b] itself and nothing waits for a [Flush]. *)
Definition io_Copy (b : bytes) (gzipReader : gzip_Reader) : bytes * option string :=
  let '(data, err) := gzip_drain gzipReader in (b ++ data, err).

Definition isGzipHeader (decodedRec : bytes) : outcome bool :=
  andThen
    (andThen (b ← index decodedRec 0; mret (Byte.eqb b gzipID1))
             (b ← index decodedRec 1; mret (Byte.eqb b gzipID2)))
    (b ← index decodedRec 2; mret (Byte.eqb b gzipDeflate)).

Definition decodeRecord (rec : string) : outcome (bytes * RecordOrigin * option error) :=
  match base64.DecodeString rec with
  | None =>
      mret ([], OriginUnknown,
            Some (Errorf "error base64-decoding record: " CorruptInputError))
  | Some decodedRec =>
      gz ← isGzipHeader decodedRec;
      if negb gz then mret (decodedRec, OriginDirectPUT, None)
      else
        match gzip_NewReader decodedRec with
        | inl err =>
            mret ([], OriginCloudwatchLogs,
                  Some (Errorf "error creating gzip reader: " (LibraryError err)))
        | inr gzipReader =>
            match io_Copy [] gzipReader with
            | (_, Some err) =>
                mret ([], OriginCloudwatchLogs,
                      Some (Errorf "error reading gzipped bytes: " (LibraryError err)))
            | (b, None) => mret (b, OriginCloudwatchLogs, None)
            end
        end
  end.

(** The body of the loop of [postProcessLabels] *)
Definition keepLabel (entryLabels : gmap string string) (lbl : labels.Label)
  : gmap string string :=
  if String.prefix "__" (labels.Name lbl)
     && negb (String.eqb (labels.Name lbl) ReservedLabelTenantID)
  then entryLabels
  else if negb (LabelName_IsValid (labels.Name lbl))
          || negb (LabelValue_IsValid (labels.Value lbl))
  then entryLabels
  else <[labels.Name lbl := labels.Value lbl]> entryLabels.

Definition postProcessLabels (lbs : labels.Labels) : gmap string string :=
  let lbs :=
    if (0 <? length (relabelRules h))%nat
    then fst (relabel_Process lbs (relabelRules h))
    else lbs in
  foldl keepLabel ∅ lbs.

(** The unfinished [relabel] method: it returns its zero result. *)
Definition relabel (lbs : labels.Labels) : labels.Labels := [].

Definition sendAPIResponse (firehoseID errMsg : string) (status : Z) : M unit :=
  now ← time_Now_;
  let timestamp := Time_Unix now in
  Header_Set "Content-Type" "application/json";;
  WriteHeader status;;
  if negb (String.eqb errMsg "")
  then Write (errorResponse firehoseID timestamp errMsg)
  else Write (successResponse firehoseID timestamp).

Definition handleCloudwatchLogsRecord (data : bytes) (commonLabels : labels.Labels)
  : M (option error) :=
  match json_Unmarshal data with
  | inl err => mret (Some (LibraryError err))
  | inr cwRecord =>
      cwLogsLabels ← NewBuilder commonLabels;
      Builder_Set cwLogsLabels "__aws_owner" (CloudwatchLogsRecord.Owner cwRecord);;
      Builder_Set cwLogsLabels "__aws_cw_log_group" (CloudwatchLogsRecord.LogGroup cwRecord);;
      Builder_Set cwLogsLabels "__aws_cw_log_stream" (CloudwatchLogsRecord.LogStream cwRecord);;
      Builder_Set cwLogsLabels "__aws_cw_matched_filters"
        (String.concat "," (CloudwatchLogsRecord.SubscriptionFilters cwRecord));;
      Builder_Set cwLogsLabels "__aws_cw_msg_type" (CloudwatchLogsRecord.MessageType cwRecord);;
      forEach (CloudwatchLogsRecord.LogEvents cwRecord) (λ event,
        lbs ← Builder_Labels cwLogsLabels;
        now ← time_Now_;
        Send {| Entry.Labels := postProcessLabels lbs;
                Entry.Timestamp := now;
                Entry.Line := CloudwatchLogEvent.Message event |});;
      mret None
  end.

(** One iteration of the loop over the records of [ServeHTTP].  The
    result tells how the iteration ends: [true] when the loop goes on
    with the next record, [false] when the iteration ends in [return]
    (the response is written by then). *)
Definition serveRecord (firehoseReq : FirehoseRequest.t) (commonLabels : nat)
    (rec : FirehoseRecord.t) : M bool :=
  '(decodedRecord, recordType, err) ← lift (decodeRecord (FirehoseRecord.Data rec));
  match err with
  | Some _ =>
      modify (set_errors (Inc "decode"));;
      level_Error "failed to decode request record";;
      sendAPIResponse (FirehoseRequest.RequestID firehoseReq)
        "failed to decode record" StatusBadRequest;;
      mret false
  | None =>
      modify (set_recordsReceived (Inc (RecordOrigin_string recordType)));;
      err ← match recordType with
            | OriginDirectPUT =>
                lbs ← Builder_Labels commonLabels;
                now ← time_Now_;
                Send {| Entry.Labels := postProcessLabels lbs;
                        Entry.Timestamp := now;
                        Entry.Line := string_of_bytes decodedRecord |};;
                mret None
            | OriginCloudwatchLogs =>
                lbs ← Builder_Labels commonLabels;
                handleCloudwatchLogsRecord decodedRecord lbs
            | OriginUnknown => mret None
            end;
      match err with
      | Some _ =>
          modify (set_errors (Inc "handle_cw"));;
          level_Error "failed to handle cloudwatch record";;
          sendAPIResponse (FirehoseRequest.RequestID firehoseReq)
            "failed to handle cloudwatch record" StatusBadRequest;;
          mret false
      | None => mret true
      end
  end.

(** The loop over the records and the success response after it *)
Fixpoint serveRecords (firehoseReq : FirehoseRequest.t) (commonLabels : nat)
    (records : list FirehoseRecord.t) : M unit :=
  match records with
  | [] => sendAPIResponse (FirehoseRequest.RequestID firehoseReq) "" StatusOK
  | rec :: records' =>
      continue ← serveRecord firehoseReq commonLabels rec;
      if continue : bool then serveRecords firehoseReq commonLabels records'
      else mret ()
  end.

(** The common labels of a batch, [ServeHTTP] lines 149 to 157 *)
Definition buildCommonLabels (req : Request.t) : M nat :=
  commonLabels ← NewBuilder [];
  Builder_Set commonLabels "__aws_firehose_request_id"
    (Request.Header_Get req "X-Amz-Firehose-Request-Id");;
  Builder_Set commonLabels "__aws_firehose_source_arn"
    (Request.Header_Get req "X-Amz-Firehose-Source-Arn");;
  let tenantHeader := Request.Header_Get req "X-Scope-OrgID" in
  (if negb (String.eqb tenantHeader "")
   then Builder_Set commonLabels ReservedLabelTenantID tenantHeader
   else mret ());;
  mret commonLabels.

Definition decodeBatch (bodyReader : bytes + gzip_Reader) (req : Request.t) : M unit :=
  match json_Decode bodyReader with
  | inl err =>
      modify (set_errors (Inc "read_or_format"));;
      level_Error "failed to unmarshall request";;
      http_Error err StatusBadRequest
  | inr firehoseReq =>
      commonLabels ← buildCommonLabels req;
      serveRecords firehoseReq commonLabels (FirehoseRequest.Records firehoseReq)
  end.

Definition ServeHTTP (req : Request.t) : M unit :=
  level_Info "handling request";;
  if String.eqb (Request.Header_Get req "Content-Encoding") "gzip"
  then
    match gzip_NewReader (Request.Body req) with
    | inl err =>
        modify (set_errors (Inc "pre_read"));;
        level_Error "failed to create gzip reader";;
        http_Error err StatusBadRequest
    | inr bodyReader => decodeBatch (inr bodyReader) req
    end
  else decodeBatch (inl (Request.Body req)) req.

End handler.

(** ** A gzip codec for the examples

    The theorems below hold for any gzip implementation.  The examples run
    the handler on this one: a writer that emits the ten-byte header, the
    data in stored (uncompressed) deflate blocks of at most 65535 bytes and
    the CRC-32 and length trailer, and a reader for such streams. *)
Module stored_gzip.

Definition to_byte (v : N) : byte := base64.byte_trunc v.

(** Little-endian integers of [n] bytes *)
Fixpoint le (n : nat) (v : N) : bytes :=
  match n with
  | O => []
  | S n' => to_byte v :: le n' (N.shiftr v 8)
  end.

Fixpoint unle (bs : bytes) : N :=
  match bs with
  | [] => 0
  | b :: bs' => Byte.to_N b + 256 * unle bs'
  end.

Definition crc_shift (c : N) : N :=
  if N.testbit c 0 then N.lxor (N.shiftr c 1) 3988292384 else N.shiftr c 1.

Definition crc_update (crc : N) (b : byte) : N :=
  Nat.iter 8 crc_shift (N.lxor crc (Byte.to_N b)).

Definition crc32 (bs : bytes) : N :=
  N.lxor (fold_left crc_update bs 4294967295) 4294967295.

Definition header : bytes :=
  [gzipID1; gzipID2; gzipDeflate; Byte.x00; Byte.x00; Byte.x00; Byte.x00;
   Byte.x00; Byte.x00; Byte.xff].

Definition maxStored : nat := N.to_nat 65535.

(** A stored block: the final-block bit, [LEN], its complement, the data *)
Definition block (final : bool) (data : bytes) : bytes :=
  (if final then Byte.x01 else Byte.x00)
    :: le 2 (N.of_nat (length data))
    ++ le 2 (65535 - N.of_nat (length data))
    ++ data.

Fixpoint blocks (fuel : nat) (data : bytes) : bytes :=
  match fuel with
  | O => block true data
  | S fuel' =>
      if (length data <=? maxStored)%nat then block true data
      else block false (take maxStored data) ++ blocks fuel' (drop maxStored data)
  end.

Definition trailer (data : bytes) : bytes :=
  le 4 (crc32 data) ++ le 4 (N.of_nat (length data)).

Definition compress (data : bytes) : bytes :=
  header ++ blocks (length data) data ++ trailer data.

Definition bytes_eqb (a b : bytes) : bool :=
  String.eqb (string_of_bytes a) (string_of_bytes b).

(** The opened stream: what follows the header *)
Definition NewReader (src : bytes) : string + bytes :=
  match src with
  | id1 :: id2 :: cm :: flg :: _ :: _ :: _ :: _ :: _ :: _ :: rest =>
      if Byte.eqb id1 gzipID1 && Byte.eqb id2 gzipID2 && Byte.eqb cm gzipDeflate
      then if Byte.eqb flg Byte.x00 then inr rest
           else inl "gzip: header flags not supported"%string
      else inl "gzip: invalid header"%string
  | _ => inl "unexpected EOF"%string
  end.

Fixpoint inflate (fuel : nat) (src out : bytes) : option (bytes * bytes) :=
  match fuel with
  | O => None
  | S fuel' =>
      match src with
      | hd :: l0 :: l1 :: n0 :: n1 :: rest =>
          let len := unle [l0; l1] in
          if (N.shiftr (Byte.to_N hd) 1 =? 0) && (unle [n0; n1] =? 65535 - len)
             && (N.to_nat len <=? length rest)%nat
          then
            let out' := out ++ take (N.to_nat len) rest in
            if N.testbit (Byte.to_N hd) 0 then Some (out', drop (N.to_nat len) rest)
            else inflate fuel' (drop (N.to_nat len) rest) out'
          else None
      | _ => None
      end
  end.

Definition drain (r : bytes) : bytes * option string :=
  match inflate (S (length r)) r [] with
  | None => ([], Some "flate: corrupt input"%string)
  | Some (out, rest) =>
      if bytes_eqb rest (trailer out) then (out, None)
      else (out, Some "gzip: invalid checksum"%string)
  end.

End stored_gzip.


(** ** Collaborators for the examples

    Stand-ins of the kind the handler's Go tests inject: the stored-block
    gzip codec above, the label grammar of Prometheus (names matching
    [[a-zA-Z_][a-zA-Z0-9_]*], values that are valid UTF-8), relabelling
    rules that copy one label to another, and JSON decoders that recognise
    the documents of a given list of values through their marshalling. *)
Module double.

Definition q (s : string) : string := dq +:+ s +:+ dq.

Definition field (name value : string) : string := q name +:+ ":" +:+ value.

Definition object (fields : list string) : string :=
  "{" +:+ String.concat "," fields +:+ "}".

Definition array (items : list string) : string :=
  "[" +:+ String.concat "," items +:+ "]".

Definition marshalRecord (r : FirehoseRecord.t) : string :=
  object [field "data" (q (FirehoseRecord.Data r))].

Definition marshalRequest (r : FirehoseRequest.t) : string :=
  object [field "requestId" (q (FirehoseRequest.RequestID r));
          field "timestamp" (format_int (FirehoseRequest.Timestamp r));
          field "records" (array (marshalRecord <$> FirehoseRequest.Records r))].

Definition marshalEvent (e : CloudwatchLogEvent.t) : string :=
  object [field "id" (q (CloudwatchLogEvent.ID e));
          field "timestamp" (format_int (CloudwatchLogEvent.Timestamp e));
          field "message" (q (CloudwatchLogEvent.Message e))].

Definition marshalCloudwatch (r : CloudwatchLogsRecord.t) : string :=
  object [field "owner" (q (CloudwatchLogsRecord.Owner r));
          field "logGroup" (q (CloudwatchLogsRecord.LogGroup r));
          field "logStream" (q (CloudwatchLogsRecord.LogStream r));
          field "subscriptionFilters"
            (array (q <$> CloudwatchLogsRecord.SubscriptionFilters r));
          field "messageType" (q (CloudwatchLogsRecord.MessageType r));
          field "logEvents" (array (marshalEvent <$> CloudwatchLogsRecord.LogEvents r))].

Definition unmarshalAmong {A} (marshal : A → string) (known : list A) (data : bytes)
  : string + A :=
  match find (λ a, String.eqb (marshal a) (string_of_bytes data)) known with
  | Some a => inr a
  | None => inl "invalid character looking for beginning of value"%string
  end.

Definition Decode (known : list FirehoseRequest.t) (r : bytes + bytes)
  : string + FirehoseRequest.t :=
  match r with
  | inl body => unmarshalAmong marshalRequest known body
  | inr gz =>
      match stored_gzip.drain gz with
      | (body, None) => unmarshalAmong marshalRequest known body
      | (_, Some err) => inl err
      end
  end.

Definition is_letter (c : ascii) : bool :=
  let n := N_of_ascii c in
  ((65 <=? n) && (n <=? 90)) || ((97 <=? n) && (n <=? 122)) || (n =? 95).

Definition is_digit (c : ascii) : bool :=
  let n := N_of_ascii c in (48 <=? n) && (n <=? 57).

Fixpoint all_chars (p : ascii → bool) (s : string) : bool :=
  match s with
  | EmptyString => true
  | String c s' => p c && all_chars p s'
  end.

Definition IsValidName (s : string) : bool :=
  match s with
  | EmptyString => false
  | String c s' => is_letter c && all_chars (λ d, is_letter d || is_digit d) s'
  end.

Definition within (lo hi b : N) : bool := (lo <=? b) && (b <=? hi).

Fixpoint utf8_valid (bs : list N) : bool :=
  match bs with
  | [] => true
  | b0 :: r1 =>
      if b0 <? 128 then utf8_valid r1
      else match r1 with
      | [] => false
      | b1 :: r2 =>
          if within 194 223 b0 then within 128 191 b1 && utf8_valid r2
          else match r2 with
          | [] => false
          | b2 :: r3 =>
              if within 224 239 b0 then
                within (if b0 =? 224 then 160 else 128) (if b0 =? 237 then 159 else 191) b1
                && within 128 191 b2 && utf8_valid r3
              else match r3 with
              | [] => false
              | b3 :: r4 =>
                  within 240 244 b0
                  && within (if b0 =? 240 then 144 else 128) (if b0 =? 244 then 143 else 191) b1
                  && within 128 191 b2 && within 128 191 b3 && utf8_valid r4
              end
          end
      end
  end.

Definition IsValidValue (s : string) : bool :=
  utf8_valid (Byte.to_N <$> bytes_of_string s).

(** A relabelling rule with the default regular expression, action and
    replacement: the target label takes the value of the source label. *)
Record rule := { SourceLabel : string; TargetLabel : string }.

Definition Get (lbs : labels.Labels) (n : string) : string :=
  match find (λ l, String.eqb (labels.Name l) n) lbs with
  | Some l => labels.Value l
  | None => ""
  end.

Definition Process (lbs : labels.Labels) (cfgs : list rule) : labels.Labels * bool :=
  (labels.Labels_
     (foldl (λ lb cfg, labels.Set_ lb (TargetLabel cfg) (Get lbs (SourceLabel cfg)))
            (labels.NewBuilder lbs) cfgs),
   true).

Definition collaborators (requests : list FirehoseRequest.t)
    (cloudwatch : list CloudwatchLogsRecord.t) (clock : nat → Z) : Collaborators :=
  {| gzip_Reader := bytes;
     gzip_NewReader := stored_gzip.NewReader;
     gzip_drain := stored_gzip.drain;
     json_Decode := Decode requests;
     json_Unmarshal := unmarshalAmong marshalCloudwatch cloudwatch;
     relabel_Config := rule;
     relabel_Process := Process;
     LabelName_IsValid := IsValidName;
     LabelValue_IsValid := IsValidValue;
     ReservedLabelTenantID := "__tenant_id__";
     time_Now := clock |}.

End double.

(** ** Views of the handler used in the statements *)

Section views.
Context `{Collaborators}.

(** The batch envelope that [ServeHTTP] reads from a request, or the
    error of the reader or decoder that made it give up *)
Definition readBatch (req : Request.t) : string + FirehoseRequest.t :=
  if String.eqb (Request.Header_Get req "Content-Encoding") "gzip"
  then match gzip_NewReader (Request.Body req) with
       | inl err => inl err
       | inr bodyReader => json_Decode (inr bodyReader)
       end
  else json_Decode (inl (Request.Body req)).

(** The builder that [buildCommonLabels] leaves on the heap *)
Definition commonBuilder (req : Request.t) : labels.Builder :=
  let b := labels.Set_ (labels.NewBuilder []) "__aws_firehose_request_id"
             (Request.Header_Get req "X-Amz-Firehose-Request-Id") in
  let b := labels.Set_ b "__aws_firehose_source_arn"
             (Request.Header_Get req "X-Amz-Firehose-Source-Arn") in
  if negb (String.eqb (Request.Header_Get req "X-Scope-OrgID") "")
  then labels.Set_ b ReservedLabelTenantID (Request.Header_Get req "X-Scope-OrgID")
  else b.

(** The builder that [handleCloudwatchLogsRecord] allocates and fills *)
Definition cloudwatchBuilder (commonLabels : labels.Labels)
    (cwRecord : CloudwatchLogsRecord.t) : labels.Builder :=
  let b := labels.NewBuilder commonLabels in
  let b := labels.Set_ b "__aws_owner" (CloudwatchLogsRecord.Owner cwRecord) in
  let b := labels.Set_ b "__aws_cw_log_group" (CloudwatchLogsRecord.LogGroup cwRecord) in
  let b := labels.Set_ b "__aws_cw_log_stream" (CloudwatchLogsRecord.LogStream cwRecord) in
  let b := labels.Set_ b "__aws_cw_matched_filters"
             (String.concat "," (CloudwatchLogsRecord.SubscriptionFilters cwRecord)) in
  labels.Set_ b "__aws_cw_msg_type" (CloudwatchLogsRecord.MessageType cwRecord).

(** The names of the labels that only a CloudWatch record gets *)
Definition cloudwatchLabelNames : list string :=
  ["__aws_owner"; "__aws_cw_log_group"; "__aws_cw_log_stream";
   "__aws_cw_matched_filters"; "__aws_cw_msg_type"]%string.

(** The bytes are a beginning of the three bytes [1f 8b 08] that
    [decodeRecord] looks for *)
Definition magicPrefix (decodedRec : bytes) : bool :=
  match decodedRec with
  | [] => true
  | [a] => Byte.eqb a gzipID1
  | [a; b] => Byte.eqb a gzipID1 && Byte.eqb b gzipID2
  | a :: b :: c :: _ =>
      Byte.eqb a gzipID1 && Byte.eqb b gzipID2 && Byte.eqb c gzipDeflate
  end.

(** The entries that the loop of [handleCloudwatchLogsRecord] sends for
    the events, the first one at the clock reading number [tick] *)
Fixpoint cloudwatchEntries (lbs : gmap string string) (tick : nat)
    (events : list CloudwatchLogEvent.t) : list Entry.t :=
  match events with
  | [] => []
  | event :: events' =>
      {| Entry.Labels := lbs;
         Entry.Timestamp := time_Now tick;
         Entry.Line := CloudwatchLogEvent.Message event |}
        :: cloudwatchEntries lbs (S tick) events'
  end.

(** The labels that [postProcessLabels] filters: the output of the
    relabelling when the handler has rules, its argument when not *)
Definition relabelled (h : Handler) (lbs : labels.Labels) : labels.Labels :=
  if (0 <? length (relabelRules h))%nat
  then fst (relabel_Process lbs (relabelRules h))
  else lbs.

(** The body that [sendAPIResponse] writes *)
Definition responseBody (firehoseID errMsg : string) (timestamp : Z) : string :=
  if negb (String.eqb errMsg "")
  then errorResponse firehoseID timestamp errMsg
  else successResponse firehoseID timestamp.

(** The response writer after [sendAPIResponse] wrote the only response
    of the request at the clock reading number [tick] *)
Definition apiResponse (firehoseID errMsg : string) (status : Z) (tick : nat)
    (r : ResponseWriter.t) : ResponseWriter.t :=
  {| ResponseWriter.Header :=
       <["Content-Type" := "application/json"]> (ResponseWriter.Header r);
     ResponseWriter.Status := Some status;
     ResponseWriter.Written :=
       ResponseWriter.Written r
       +:+ responseBody firehoseID errMsg (Time_Unix (time_Now tick)) |}.

(** The response writer after [http.Error] wrote the only response *)
Definition plainResponse (err : string) (code : Z) (r : ResponseWriter.t)
  : ResponseWriter.t :=
  {| ResponseWriter.Header :=
       <["X-Content-Type-Options" := "nosniff"]>
         (<["Content-Type" := "text/plain; charset=utf-8"]> (ResponseWriter.Header r));
     ResponseWriter.Status := Some code;
     ResponseWriter.Written :=
       ResponseWriter.Written r +:+ err +:+ String "010"%char EmptyString |}.

(** A label breaks the conditions of [postProcessLabels] *)
Definition violates (lbl : labels.Label) : bool :=
  (String.prefix "__" (labels.Name lbl)
   && negb (String.eqb (labels.Name lbl) ReservedLabelTenantID))
  || negb (LabelName_IsValid (labels.Name lbl))
  || negb (LabelValue_IsValid (labels.Value lbl)).

End views.

(** ** Requests of the examples *)
Module examples.

Definition wallClock (n : nat) : Z := (1700000000000000000 + Z.of_nat n)%Z.

Definition helloRecord : FirehoseRecord.t :=
  {| FirehoseRecord.Data := base64.EncodeToString (bytes_of_string "hello world") |}.

Definition emptyRecord : FirehoseRecord.t := {| FirehoseRecord.Data := "" |}.

Definition corruptRecord : FirehoseRecord.t := {| FirehoseRecord.Data := "!!!!" |}.

Definition controlMessage : CloudwatchLogsRecord.t :=
  {| CloudwatchLogsRecord.Owner := "CloudwatchLogs";
     CloudwatchLogsRecord.LogGroup := "";
     CloudwatchLogsRecord.LogStream := "";
     CloudwatchLogsRecord.SubscriptionFilters := [];
     CloudwatchLogsRecord.MessageType := "CONTROL_MESSAGE";
     CloudwatchLogsRecord.LogEvents :=
       [ {| CloudwatchLogEvent.ID := "";
            CloudwatchLogEvent.Timestamp := 1700000000000;
            CloudwatchLogEvent.Message :=
              "CWL CONTROL MESSAGE: Checking health of destination Firehose." |} ] |}.

Definition dataMessage : CloudwatchLogsRecord.t :=
  {| CloudwatchLogsRecord.Owner := "111122223333";
     CloudwatchLogsRecord.LogGroup := "app";
     CloudwatchLogsRecord.LogStream := "i-0123";
     CloudwatchLogsRecord.SubscriptionFilters := ["all"; "errors"]%string;
     CloudwatchLogsRecord.MessageType := "DATA_MESSAGE";
     CloudwatchLogsRecord.LogEvents :=
       [ {| CloudwatchLogEvent.ID := "1";
            CloudwatchLogEvent.Timestamp := 1700000000001;
            CloudwatchLogEvent.Message := "first line" |};
         {| CloudwatchLogEvent.ID := "2";
            CloudwatchLogEvent.Timestamp := 1700000000002;
            CloudwatchLogEvent.Message := "second line" |} ] |}.

(** A CloudWatch record as Firehose delivers it: JSON, gzip, base64 *)
Definition cloudwatchRecord (r : CloudwatchLogsRecord.t) : FirehoseRecord.t :=
  {| FirehoseRecord.Data :=
       base64.EncodeToString
         (stored_gzip.compress (bytes_of_string (double.marshalCloudwatch r))) |}.

Definition batch (records : list FirehoseRecord.t) : FirehoseRequest.t :=
  {| FirehoseRequest.RequestID := "a1af4300-6c09-4916-ba8f-12f336176246";
     FirehoseRequest.Timestamp := 1700000000000;
     FirehoseRequest.Records := records |}.

Definition emptyBatch := batch [].
Definition helloBatch := batch [helloRecord].
Definition threeBatch := batch [helloRecord; corruptRecord; helloRecord].
Definition shortBatch := batch [emptyRecord; corruptRecord].
Definition cloudwatchBatch :=
  batch [helloRecord; cloudwatchRecord dataMessage; helloRecord].

#[global] Instance env : Collaborators :=
  double.collaborators
    [emptyBatch; helloBatch; threeBatch; shortBatch; cloudwatchBatch]
    [controlMessage; dataMessage] wallClock.

Definition noRules : Handler := {| relabelRules := [] |}.

(** The rules of the handler's Go test: the request id and the source ARN
    are copied to labels that survive. *)
Definition keepRules : Handler :=
  {| relabelRules :=
       [ {| double.SourceLabel := "__aws_firehose_request_id";
            double.TargetLabel := "aws_request_id" |};
         {| double.SourceLabel := "__aws_firehose_source_arn";
            double.TargetLabel := "aws_source_arn" |} ] |}.

Definition headers (encoding name : string) : string :=
  if String.eqb name "Content-Encoding" then encoding
  else if String.eqb name "X-Amz-Firehose-Request-Id"
  then "a1af4300-6c09-4916-ba8f-12f336176246"
  else if String.eqb name "X-Amz-Firehose-Source-Arn"
  then "arn:aws:firehose:us-east-2:123:deliverystream/aws_firehose_test_stream"
  else "".

Definition post (b : FirehoseRequest.t) : Request.t :=
  {| Request.Header_Get := headers "";
     Request.Body := bytes_of_string (double.marshalRequest b) |}.

Definition postGzip (b : FirehoseRequest.t) : Request.t :=
  {| Request.Header_Get := headers "gzip";
     Request.Body := stored_gzip.compress (bytes_of_string (double.marshalRequest b)) |}.

(** A request that announces gzip and carries the plain document *)
Definition postMislabelled (b : FirehoseRequest.t) : Request.t :=
  {| Request.Header_Get := headers "gzip";
     Request.Body := bytes_of_string (double.marshalRequest b) |}.

(** The world in which the loop over the records of [post helloBatch]
    starts: the builder of the common labels is the only one. *)
Definition loopStart : World :=
  set_builders (λ _, [commonBuilder (post helloBatch)]) initial.

End examples.

(** ** More of the repository: [component.HTTPPrefix] *)

Definition HTTPPrefix (componentID : string) : string :=
  "/component/" +:+ componentID +:+ "/".

#[global] Instance Label_eq_dec : EqDecision labels.Label.
Proof. solve_decision. Defined.

(** ** More views of the handler *)

Section more_views.
Context `{Collaborators}.

(** The entries that the loop of [ServeHTTP] sends for direct-put records
    with the given decoded bytes, the first one at the clock reading number
    [tick] *)
Fixpoint directPutEntries (lbs : gmap string string) (tick : nat)
    (decoded : list bytes) : list Entry.t :=
  match decoded with
  | [] => []
  | decodedRecord :: decoded' =>
      {| Entry.Labels := lbs;
         Entry.Timestamp := time_Now tick;
         Entry.Line := string_of_bytes decodedRecord |}
        :: directPutEntries lbs (S tick) decoded'
  end.

(** The record is the base64 of bytes that do not start like a gzip
    stream. *)
Definition plainRecord (rec : FirehoseRecord.t) (decodedRecord : bytes) : Prop :=
  base64.DecodeString (FirehoseRecord.Data rec) = Some decodedRecord
  ∧ magicPrefix decodedRecord = false.

End more_views.

(** ** More requests for the examples *)
Module more_examples.

(** A gzipped record whose content is not JSON *)
Definition notJsonRecord : FirehoseRecord.t :=
  {| FirehoseRecord.Data :=
       base64.EncodeToString (stored_gzip.compress (bytes_of_string "not json")) |}.

(** A gzip stream cut after its header and two more bytes *)
Definition truncatedRecord : FirehoseRecord.t :=
  {| FirehoseRecord.Data :=
       base64.EncodeToString
         (take 12 (stored_gzip.compress (bytes_of_string "hello world"))) |}.

Definition tenantHeaders (name : string) : string :=
  if String.eqb name "X-Scope-OrgID" then "team-a" else examples.headers "" name.

Definition tenantPost (b : FirehoseRequest.t) : Request.t :=
  {| Request.Header_Get := tenantHeaders;
     Request.Body := bytes_of_string (double.marshalRequest b) |}.

End more_examples.

(** ** Views of a CloudWatch record and its message type *)

(** The envelope with another message type *)
Definition withMessageType (messageType : string) (cwRecord : CloudwatchLogsRecord.t)
  : CloudwatchLogsRecord.t :=
  {| CloudwatchLogsRecord.Owner := CloudwatchLogsRecord.Owner cwRecord;
     CloudwatchLogsRecord.LogGroup := CloudwatchLogsRecord.LogGroup cwRecord;
     CloudwatchLogsRecord.LogStream := CloudwatchLogsRecord.LogStream cwRecord;
     CloudwatchLogsRecord.SubscriptionFilters :=
       CloudwatchLogsRecord.SubscriptionFilters cwRecord;
     CloudwatchLogsRecord.MessageType := messageType;
     CloudwatchLogsRecord.LogEvents := CloudwatchLogsRecord.LogEvents cwRecord |}.

(** The builder of [handleCloudwatchLogsRecord] before its last [Set], the
    one of the message type *)
Definition originBuilder (commonLabels : labels.Labels)
    (cwRecord : CloudwatchLogsRecord.t) : labels.Builder :=
  let b := labels.NewBuilder commonLabels in
  let b := labels.Set_ b "__aws_owner" (CloudwatchLogsRecord.Owner cwRecord) in
  let b := labels.Set_ b "__aws_cw_log_group" (CloudwatchLogsRecord.LogGroup cwRecord) in
  let b := labels.Set_ b "__aws_cw_log_stream" (CloudwatchLogsRecord.LogStream cwRecord) in
  labels.Set_ b "__aws_cw_matched_filters"
    (String.concat "," (CloudwatchLogsRecord.SubscriptionFilters cwRecord)).

(** The names and values that [handleCloudwatchLogsRecord] sets *)
Definition originLabels (cwRecord : CloudwatchLogsRecord.t) : list (string * string) :=
  [("__aws_owner", CloudwatchLogsRecord.Owner cwRecord);
   ("__aws_cw_log_group", CloudwatchLogsRecord.LogGroup cwRecord);
   ("__aws_cw_log_stream", CloudwatchLogsRecord.LogStream cwRecord);
   ("__aws_cw_matched_filters",
    String.concat "," (CloudwatchLogsRecord.SubscriptionFilters cwRecord));
   ("__aws_cw_msg_type", CloudwatchLogsRecord.MessageType cwRecord)]%string.

(** ** A control message and its twin of type DATA_MESSAGE *)
Module twin_examples.

Definition dataTwin : CloudwatchLogsRecord.t :=
  withMessageType "DATA_MESSAGE" examples.controlMessage.

Definition env : Collaborators :=
  double.collaborators [] [examples.controlMessage; dataTwin] examples.wallClock.

Definition noRules : @Handler env := @Build_Handler env [].

(** The rule of a user who wants to see the message type as a label *)
Definition typeRule : @Handler env :=
  @Build_Handler env
    [ {| double.SourceLabel := "__aws_cw_msg_type";
         double.TargetLabel := "msg_type" |} ].

End twin_examples.

(** * Properties *)

(** ** The codecs on small inputs *)

Example base64_hello :
  base64.EncodeToString (bytes_of_string "hello world") = "aGVsbG8gd29ybGQ="%string
  ∧ base64.DecodeString "aGVsbG8gd29ybGQ=" = Some (bytes_of_string "hello world")
  ∧ base64.DecodeString "aGVs
bG8gd29ybGQ=" = Some (bytes_of_string "hello world")
  ∧ base64.DecodeString "" = Some []
  ∧ base64.DecodeString "Hw==" = Some [Byte.x1f]
  ∧ base64.DecodeString "H4s=" = Some [Byte.x1f; Byte.x8b]
  ∧ base64.DecodeString "a" = None
  ∧ base64.DecodeString "aGVsbG8=aGVs" = None
  ∧ base64.DecodeString "!!!!" = None.
Proof. vm_compute. repeat split. Qed.

Example stored_gzip_hello :
  stored_gzip.crc32 (bytes_of_string "a") = 3904355907
  ∧ base64.EncodeToString (stored_gzip.compress (bytes_of_string "hi"))
    = "H4sIAAAAAAAA/wECAP3/aGmsKpPYAgAAAA=="%string
  ∧ match stored_gzip.NewReader (stored_gzip.compress (bytes_of_string "hi")) with
    | inr r => stored_gzip.drain r = (bytes_of_string "hi", None)
    | inl _ => False
    end.
Proof. vm_compute. repeat split. Qed.


(** [lia] is to see through division and remainder by constants. *)
#[local] Ltac Zify.zify_post_hook ::= Z.to_euclidean_division_equations.

(** ** Base64: decoding undoes encoding *)

Lemma lor_mul_pow2_add x y k : y < 2 ^ k → N.lor (x * 2 ^ k) y = x * 2 ^ k + y.
Proof.
  intros Hy.
  assert (Hd : N.land (x * 2 ^ k) y = 0).
  { apply N.bits_inj. intros n. rewrite N.land_spec, N.bits_0.
    destruct (N.lt_ge_cases n k) as [Hn|Hn].
    - by rewrite N.mul_pow2_bits_low.
    - rewrite <- (N.mod_small y (2 ^ k)) by done.
      rewrite N.mod_pow2_bits_high by done. apply andb_false_r. }
  by rewrite N.add_nocarry_lxor, N.lxor_lor.
Qed.

Lemma to_N_lt (b : byte) : Byte.to_N b < 256.
Proof. pose proof (Byte.to_N_bounded b). lia. Qed.

Lemma pack3_arith a b c :
  base64.pack3 a b c = Byte.to_N a * 65536 + Byte.to_N b * 256 + Byte.to_N c.
Proof.
  unfold base64.pack3.
  pose proof (to_N_lt a). pose proof (to_N_lt b). pose proof (to_N_lt c).
  rewrite !N.shiftl_mul_pow2.
  rewrite (lor_mul_pow2_add (Byte.to_N a) (Byte.to_N b * 2 ^ 8) 16)
    by (change (2 ^ 8) with 256; change (2 ^ 16) with 65536; lia).
  replace (Byte.to_N a * 2 ^ 16 + Byte.to_N b * 2 ^ 8)
    with ((Byte.to_N a * 256 + Byte.to_N b) * 2 ^ 8)
    by (change (2 ^ 8) with 256; change (2 ^ 16) with 65536; lia).
  rewrite lor_mul_pow2_add by (change (2 ^ 8) with 256; lia).
  change (2 ^ 8) with 256. lia.
Qed.

Lemma unpack_arith d0 d1 d2 d3 :
  d0 < 64 → d1 < 64 → d2 < 64 → d3 < 64 →
  base64.unpack d0 d1 d2 d3 = d0 * 262144 + d1 * 4096 + d2 * 64 + d3.
Proof.
  intros. unfold base64.unpack. rewrite !N.shiftl_mul_pow2.
  rewrite (lor_mul_pow2_add d0 (d1 * 2 ^ 12) 18)
    by (change (2 ^ 12) with 4096; change (2 ^ 18) with 262144; lia).
  replace (d0 * 2 ^ 18 + d1 * 2 ^ 12) with ((d0 * 64 + d1) * 2 ^ 12)
    by (change (2 ^ 12) with 4096; change (2 ^ 18) with 262144; lia).
  rewrite (lor_mul_pow2_add _ (d2 * 2 ^ 6) 12)
    by (change (2 ^ 12) with 4096; change (2 ^ 6) with 64; lia).
  replace ((d0 * 64 + d1) * 2 ^ 12 + d2 * 2 ^ 6) with (((d0 * 64 + d1) * 64 + d2) * 2 ^ 6)
    by (change (2 ^ 12) with 4096; change (2 ^ 6) with 64; lia).
  rewrite lor_mul_pow2_add by (change (2 ^ 6) with 64; lia).
  change (2 ^ 6) with 64. lia.
Qed.

Lemma sextet_arith val sh : N.land (N.shiftr val sh) 63 = (val / 2 ^ sh) mod 64.
Proof. by rewrite N.shiftr_div_pow2, (N.land_ones _ 6). Qed.

Lemma byte_trunc_arith v b : v mod 256 = Byte.to_N b → base64.byte_trunc v = b.
Proof.
  intros Hv. unfold base64.byte_trunc.
  rewrite (N.land_ones _ 8). change (2 ^ 8) with 256. rewrite Hv.
  by rewrite Byte.of_to_N.
Qed.

Lemma quantum3 a b c :
  let val := base64.pack3 a b c in
  let d0 := N.land (N.shiftr val 18) 63 in
  let d1 := N.land (N.shiftr val 12) 63 in
  let d2 := N.land (N.shiftr val 6) 63 in
  let d3 := N.land (N.shiftr val 0) 63 in
  d0 < 64 ∧ d1 < 64 ∧ d2 < 64 ∧ d3 < 64 ∧ base64.unpack d0 d1 d2 d3 = val.
Proof.
  intros val d0 d1 d2 d3. subst d0 d1 d2 d3.
  rewrite !sextet_arith.
  assert (Hval : val < 16777216).
  { subst val. rewrite pack3_arith.
    pose proof (to_N_lt a). pose proof (to_N_lt b). pose proof (to_N_lt c). lia. }
  change (2 ^ 18) with 262144. change (2 ^ 12) with 4096. change (2 ^ 6) with 64.
  change (2 ^ 0) with 1.
  repeat split; try (apply N.mod_lt; lia).
  rewrite unpack_arith by (apply N.mod_lt; lia).
  clearbody val. lia.
Qed.

Lemma quantum_bytes a b c :
  let val := base64.pack3 a b c in
  base64.byte_trunc (N.shiftr val 16) = a
  ∧ base64.byte_trunc (N.shiftr val 8) = b
  ∧ base64.byte_trunc val = c.
Proof.
  intros val. subst val. rewrite pack3_arith, !N.shiftr_div_pow2.
  change (2 ^ 16) with 65536. change (2 ^ 8) with 256.
  pose proof (to_N_lt a). pose proof (to_N_lt b). pose proof (to_N_lt c).
  repeat split; apply byte_trunc_arith; lia.
Qed.

Lemma quantum_low_2 a b : N.land (N.shiftr (base64.pack3 a b Byte.x00) 0) 63 = 0.
Proof.
  rewrite sextet_arith, pack3_arith. change (Byte.to_N Byte.x00) with 0.
  change (2 ^ 0) with 1. lia.
Qed.

Lemma quantum_low_1 a :
  N.land (N.shiftr (base64.pack3 a Byte.x00 Byte.x00) 6) 63 = 0
  ∧ N.land (N.shiftr (base64.pack3 a Byte.x00 Byte.x00) 0) 63 = 0.
Proof.
  rewrite !sextet_arith, pack3_arith. change (Byte.to_N Byte.x00) with 0.
  change (2 ^ 0) with 1. change (2 ^ 6) with 64. lia.
Qed.

Lemma sextet_check (f : N → bool) :
  forallb f base64.sextets = true → ∀ i, i < 64 → f i = true.
Proof.
  intros Hf i Hi. eapply forallb_forall; [exact Hf|].
  unfold base64.sextets. apply in_map_iff. exists (N.to_nat i).
  split; [lia|]. apply in_seq. lia.
Qed.

Lemma decodeMap_encodeChar i : i < 64 → base64.decodeMap (base64.encodeChar i) = Some i.
Proof.
  intros Hi.
  pose proof (sextet_check
    (λ i, match base64.decodeMap (base64.encodeChar i) with
          | Some j => N.eqb i j
          | None => false
          end) eq_refl i Hi) as Hc.
  cbv beta in Hc. destruct (base64.decodeMap (base64.encodeChar i)); [|done].
  by apply N.eqb_eq in Hc as <-.
Qed.

Lemma encodeChar_not_newline i : i < 64 → base64.is_newline (base64.encodeChar i) = false.
Proof.
  intros Hi.
  apply negb_true_iff.
  exact (sextet_check (λ i, negb (base64.is_newline (base64.encodeChar i))) eq_refl i Hi).
Qed.

Lemma sextet_lt val sh : N.land (N.shiftr val sh) 63 < 64.
Proof. rewrite sextet_arith. apply N.mod_lt. lia. Qed.

Lemma filter_Forall_id {A} (P : A → Prop) `{∀ x, Decision (P x)} (l : list A) :
  Forall P l → filter P l = l.
Proof.
  induction 1 as [|x l Hx _ IH]; [done|].
  by rewrite filter_cons_True, IH.
Qed.

(** Lists are consumed three bytes at a time. *)
Lemma triples_ind {A} (P : list A → Prop) :
  P [] → (∀ a, P [a]) → (∀ a b, P [a; b]) →
  (∀ a b c l, P l → P (a :: b :: c :: l)) →
  ∀ l, P l.
Proof.
  intros H0 H1 H2 H3.
  assert (Hall : ∀ l, P l ∧ (∀ a, P (a :: l)) ∧ (∀ a b, P (a :: b :: l))).
  { induction l as [|x l (IH0 & IH1 & IH2)]; [by auto|].
    repeat split; [apply IH1|intros; apply IH2|intros; by apply H3]. }
  intros l. apply Hall.
Qed.

Lemma Encode_no_newline bs :
  Forall (λ c, negb (base64.is_newline c)) (base64.Encode bs).
Proof.
  induction bs as [|a|a b|a b c l IH] using triples_ind; cbn [base64.Encode];
    repeat (apply Forall_cons; split);
    try (unfold base64.digit; rewrite encodeChar_not_newline by apply sextet_lt; done);
    try done.
Qed.

Lemma decodeQuanta_Encode bs : base64.decodeQuanta (base64.Encode bs) = Some bs.
Proof.
  induction bs as [|a|a b|a b c l IH] using triples_ind; cbn [base64.Encode].
  - done.
  - destruct (quantum3 a Byte.x00 Byte.x00) as (H0 & H1 & H2 & H3 & Hu).
    destruct (quantum_low_1 a) as [L2 L3]. rewrite L2, L3 in Hu.
    destruct (quantum_bytes a Byte.x00 Byte.x00) as (B0 & _ & _).
    cbn [base64.decodeQuanta]. unfold base64.digit.
    rewrite !decodeMap_encodeChar by done.
    change (base64.decodeMap base64.StdPadding) with (@None N).
    by rewrite Hu, B0.
  - destruct (quantum3 a b Byte.x00) as (H0 & H1 & H2 & H3 & Hu).
    rewrite (quantum_low_2 a b) in Hu.
    destruct (quantum_bytes a b Byte.x00) as (B0 & B1 & _).
    cbn [base64.decodeQuanta]. unfold base64.digit.
    rewrite !decodeMap_encodeChar by done.
    change (base64.decodeMap base64.StdPadding) with (@None N).
    by rewrite Hu, B0, B1.
  - destruct (quantum3 a b c) as (H0 & H1 & H2 & H3 & Hu).
    destruct (quantum_bytes a b c) as (B0 & B1 & B2).
    cbn [base64.decodeQuanta]. unfold base64.digit. fold base64.decodeQuanta.
    rewrite !decodeMap_encodeChar by done.
    by rewrite IH, Hu, B0, B1, B2.
Qed.

Lemma DecodeString_EncodeToString bs :
  base64.DecodeString (base64.EncodeToString bs) = Some bs.
Proof.
  unfold base64.DecodeString, base64.EncodeToString.
  rewrite String.list_ascii_of_string_of_list_ascii.
  rewrite filter_Forall_id by apply Encode_no_newline.
  apply decodeQuanta_Encode.
Qed.

(** ** The stored-block gzip codec: reading undoes writing *)

Lemma to_N_byte_trunc v : Byte.to_N (base64.byte_trunc v) = v mod 256.
Proof.
  unfold base64.byte_trunc. rewrite (N.land_ones _ 8). change (2 ^ 8) with 256.
  destruct (Byte.of_N (v mod 256)) as [b|] eqn:Hb.
  - by apply Byte.to_of_N in Hb.
  - pose proof (Byte.to_of_N_option_map (v mod 256)) as Hm. rewrite Hb in Hm.
    destruct (N.leb_spec (v mod 256) 255); [done|]. lia.
Qed.

Module stored_gzip_facts.
Import stored_gzip.

Lemma unle_le_2 n : n < 65536 → unle (le 2 n) = n.
Proof.
  intros Hn. cbn [le unle]. unfold to_byte. rewrite !to_N_byte_trunc.
  rewrite N.shiftr_div_pow2. change (2 ^ 8) with 256. lia.
Qed.

Lemma inflate_block fuel final data rest out :
  (length data ≤ maxStored)%nat →
  inflate (S fuel) (block final data ++ rest) out
  = if final then Some (out ++ data, rest) else inflate fuel rest (out ++ data).
Proof.
  intros Hlen. unfold maxStored in Hlen.
  set (n := N.of_nat (length data)).
  assert (Hn : n < 65536) by lia.
  assert (Hhd : ∃ hd, block final data ++ rest
               = hd :: le 2 n ++ le 2 (65535 - n) ++ data ++ rest
               ∧ hd = (if final then Byte.x01 else Byte.x00)).
  { eexists. split; [|done]. unfold block. by rewrite <- !app_comm_cons, <- !app_assoc. }
  destruct Hhd as (hd & -> & Hhd).
  pose proof (unle_le_2 n Hn) as Hl.
  pose proof (unle_le_2 (65535 - n) ltac:(lia)) as Hnl.
  change (le 2 n) with [to_byte n; to_byte (N.shiftr n 8)] in *.
  change (le 2 (65535 - n)) with [to_byte (65535 - n); to_byte (N.shiftr (65535 - n) 8)] in *.
  cbn [inflate app]. rewrite Hl, Hnl.
  replace (N.to_nat n) with (length data) by lia.
  rewrite take_app_length, drop_app_length.
  rewrite N.eqb_refl.
  replace (length data <=? length (data ++ rest))%nat with true
    by (symmetry; apply Nat.leb_le; rewrite length_app; lia).
  by destruct final; subst hd.
Qed.

Lemma inflate_blocks fuel : ∀ data out rest fuel',
  (length data ≤ fuel)%nat → (fuel < fuel')%nat →
  inflate fuel' (blocks fuel data ++ rest) out = Some (out ++ data, rest).
Proof.
  induction fuel as [|fuel IH]; intros data out rest fuel' Hlen Hfuel;
    destruct fuel' as [|fuel']; try lia; cbn [blocks].
  - rewrite inflate_block; [done|]. unfold maxStored. lia.
  - destruct (Nat.leb_spec (length data) maxStored) as [Hs|Hs].
    + by rewrite inflate_block.
    + rewrite <- app_assoc, inflate_block by (rewrite length_take; lia).
      assert (Hpos : (0 < maxStored)%nat) by (unfold maxStored; lia).
      rewrite IH by (rewrite ?length_drop; lia).
      by rewrite <- app_assoc, take_drop.
Qed.

Lemma bytes_eqb_refl bs : bytes_eqb bs bs = true.
Proof. apply String.eqb_refl. Qed.

Lemma NewReader_compress data :
  NewReader (compress data) = inr (blocks (length data) data ++ trailer data).
Proof. done. Qed.

Lemma drain_compress data :
  drain (blocks (length data) data ++ trailer data) = (data, None).
Proof.
  unfold drain.
  rewrite inflate_blocks; [|done|].
  - cbn [app]. by rewrite bytes_eqb_refl.
  - rewrite length_app.
    assert (length data ≤ length (blocks (length data) data))%nat; [|lia].
    generalize (length data) at 2 as fuel. intros fuel. revert data.
    induction fuel as [|fuel IH]; intros data; cbn [blocks].
    + unfold block. cbn [length]. rewrite !length_app. lia.
    + destruct (Nat.leb_spec (length data) maxStored) as [Hs|Hs].
      * unfold block. cbn [length]. rewrite !length_app. lia.
      * rewrite length_app. specialize (IH (drop maxStored data)).
        rewrite length_drop in IH. unfold block. cbn [length].
        rewrite !length_app, length_take. lia.
Qed.

Lemma compress_header data :
  ∃ rest, compress data = gzipID1 :: gzipID2 :: gzipDeflate :: rest.
Proof. by eexists. Qed.
End stored_gzip_facts.

(** ** The record decoder *)

Section decoder_facts.
Context `{Collaborators} (h : Handler).

Lemma isGzipHeader_short decodedRec :
  (length decodedRec < 3)%nat →
  isGzipHeader decodedRec
  = if magicPrefix decodedRec then Panic "index out of range" else Done false.
Proof.
  intros Hlen. destruct decodedRec as [|a [|b [|c rest]]]; cbn in Hlen; try lia;
    unfold isGzipHeader, andThen, index, magicPrefix;
    cbn [lookup list_lookup mbind outcome_bind mret outcome_ret];
    repeat (destruct (Byte.eqb _ _); cbn [andb mbind outcome_bind mret outcome_ret]);
    done.
Qed.

Lemma isGzipHeader_long a b c rest :
  isGzipHeader (a :: b :: c :: rest) = Done (magicPrefix (a :: b :: c :: rest)).
Proof.
  unfold isGzipHeader, andThen, index, magicPrefix;
    cbn [lookup list_lookup mbind outcome_bind mret outcome_ret];
    repeat (destruct (Byte.eqb _ _); cbn [andb mbind outcome_bind mret outcome_ret]);
    done.
Qed.

(** What the decoder does with a record of fewer than three bytes: the
    comparison with the magic bytes stops at the first byte that differs,
    and indexes past the end when there is none. *)
Lemma decodeRecord_short rec decodedRec :
  base64.DecodeString rec = Some decodedRec →
  (length decodedRec < 3)%nat →
  decodeRecord rec
  = if magicPrefix decodedRec then Panic "index out of range"
    else Done (decodedRec, OriginDirectPUT, None).
Proof.
  intros Hdec Hlen. unfold decodeRecord.
  rewrite Hdec, isGzipHeader_short by done.
  by destruct (magicPrefix decodedRec).
Qed.

(** A record that is not base64 is reported, with the origin unknown. *)
Lemma decodeRecord_corrupt rec :
  base64.DecodeString rec = None →
  decodeRecord rec
  = Done ([], OriginUnknown,
          Some (Errorf "error base64-decoding record: " CorruptInputError)).
Proof. intros Hdec. unfold decodeRecord. by rewrite Hdec. Qed.

(** A record without the magic bytes is returned as it was decoded. *)
Lemma decodeRecord_plain rec decodedRec :
  base64.DecodeString rec = Some decodedRec →
  magicPrefix decodedRec = false →
  decodeRecord rec = Done (decodedRec, OriginDirectPUT, None).
Proof.
  intros Hdec Hm. unfold decodeRecord. rewrite Hdec.
  destruct decodedRec as [|a [|b [|c rest]]].
  - done.
  - rewrite isGzipHeader_short by (cbn; lia). by rewrite Hm.
  - rewrite isGzipHeader_short by (cbn; lia). by rewrite Hm.
  - rewrite isGzipHeader_long. by rewrite Hm.
Qed.

(** The decoder never answers direct-put or cloudwatch-logs with an
    error, and what it returns as direct-put is the base64 decoding. *)
Lemma decodeRecord_direct rec decodedRec err :
  decodeRecord rec = Done (decodedRec, OriginDirectPUT, err) →
  base64.DecodeString rec = Some decodedRec ∧ err = None.
Proof.
  unfold decodeRecord. destruct (base64.DecodeString rec) as [d|]; [|done].
  destruct (isGzipHeader d) as [[]|]; cbn; [| |done].
  - destruct (gzip_NewReader d) as [?|r]; [done|].
    by destruct (io_Copy [] r) as [? []].
  - by intros [= -> <-].
Qed.

(** A gzipped record is returned inflated, with the origin CloudWatch. *)
Lemma decodeRecord_gzip rec decodedRec gzipReader b :
  base64.DecodeString rec = Some decodedRec →
  magicPrefix decodedRec = true →
  (3 ≤ length decodedRec)%nat →
  gzip_NewReader decodedRec = inr gzipReader →
  gzip_drain gzipReader = (b, None) →
  decodeRecord rec = Done (b, OriginCloudwatchLogs, None).
Proof.
  intros Hdec Hm Hlen Hnew Hdrain. unfold decodeRecord. rewrite Hdec.
  destruct decodedRec as [|x [|y [|z rest]]]; cbn in Hlen; try lia.
  rewrite isGzipHeader_long, Hm. cbn [negb mbind outcome_bind].
  rewrite Hnew. unfold io_Copy. by rewrite Hdrain.
Qed.

End decoder_facts.

(** ** Label post-processing *)

Section label_facts.
Context `{Collaborators} (h : Handler).

Lemma postProcessLabels_relabelled lbs :
  postProcessLabels h lbs = foldl keepLabel ∅ (relabelled h lbs).
Proof. done. Qed.

Lemma keepLabel_violates m lbl : violates lbl = true → keepLabel m lbl = m.
Proof.
  unfold violates, keepLabel. intros Hv.
  destruct (String.prefix _ _ && negb _); [done|].
  cbn [orb] in Hv. by rewrite Hv.
Qed.

Lemma keepLabel_keeps m lbl :
  violates lbl = false →
  keepLabel m lbl = <[labels.Name lbl := labels.Value lbl]> m.
Proof.
  unfold violates, keepLabel. intros Hv.
  destruct (String.prefix _ _ && negb _); [done|].
  cbn [orb] in Hv. by rewrite Hv.
Qed.

Lemma foldl_keepLabel_lookup lbs : ∀ m n v,
  foldl keepLabel m lbs !! n = Some v →
  m !! n = Some v
  ∨ ∃ lbl, lbl ∈ lbs ∧ labels.Name lbl = n ∧ labels.Value lbl = v
           ∧ violates lbl = false.
Proof.
  induction lbs as [|lbl lbs IH]; intros m n v Hn; cbn [foldl] in Hn; [by left|].
  apply IH in Hn as [Hn|(l & Hl & ?)].
  - destruct (violates lbl) eqn:Hv.
    + rewrite keepLabel_violates in Hn by done. by left.
    + rewrite keepLabel_keeps in Hn by done.
      apply lookup_insert_Some in Hn as [[<- <-]|[_ Hn]]; [|by left].
      right. exists lbl. repeat split; [left|done].
  - right. exists l. split; [by right|done].
Qed.

Lemma violates_false lbl :
  violates lbl = false →
  (String.prefix "__" (labels.Name lbl) = true → labels.Name lbl = ReservedLabelTenantID)
  ∧ LabelName_IsValid (labels.Name lbl) = true
  ∧ LabelValue_IsValid (labels.Value lbl) = true.
Proof.
  unfold violates. intros Hv.
  apply orb_false_iff in Hv as [Hv Hval]. apply orb_false_iff in Hv as [Hpre Hname].
  apply negb_false_iff in Hval, Hname. repeat split; [|done..].
  intros Hp. rewrite Hp in Hpre. cbn [andb] in Hpre.
  apply negb_false_iff in Hpre. by apply String.eqb_eq.
Qed.

(** What is in the emitted label set is a label of the filtered list that
    does not break the conditions. *)
Lemma postProcessLabels_lookup lbs n v :
  postProcessLabels h lbs !! n = Some v →
  {| labels.Name := n; labels.Value := v |} ∈ relabelled h lbs
  ∧ violates {| labels.Name := n; labels.Value := v |} = false.
Proof.
  rewrite postProcessLabels_relabelled. intros Hn.
  apply foldl_keepLabel_lookup in Hn as [Hn|([n' v'] & Hl & Hn' & Hv' & Hviol)]; [done|].
  cbn in Hn', Hv'. by subst.
Qed.

(** A label that breaks the conditions is not in the emitted label set. *)
Lemma postProcessLabels_drops lbs lbl :
  violates lbl = true →
  postProcessLabels h lbs !! labels.Name lbl ≠ Some (labels.Value lbl).
Proof.
  intros Hv Hn. apply postProcessLabels_lookup in Hn as [_ Hn].
  destruct lbl. cbn in Hn. congruence.
Qed.

(** The filter keeps what it can: the last label of a name in the list
    is emitted when it obeys the conditions. *)
Lemma postProcessLabels_keeps lbs front lbl back :
  relabelled h lbs = front ++ lbl :: back →
  labels.Name lbl ∉ (labels.Name <$> back) →
  violates lbl = false →
  postProcessLabels h lbs !! labels.Name lbl = Some (labels.Value lbl).
Proof.
  intros Hsplit Hlast Hv. rewrite postProcessLabels_relabelled, Hsplit.
  clear Hsplit.
  rewrite foldl_app. cbn [foldl]. rewrite keepLabel_keeps by done.
  generalize (foldl keepLabel ∅ front). intros m.
  assert (Hm : <[labels.Name lbl := labels.Value lbl]> m !! labels.Name lbl
               = Some (labels.Value lbl)) by apply lookup_insert_eq.
  revert Hm. generalize (<[labels.Name lbl := labels.Value lbl]> m). clear m.
  induction back as [|x back IH]; intros m Hm; cbn [foldl]; [done|].
   apply not_elem_of_cons in Hlast as [Hx Hlast].
  apply (IH Hlast).
  destruct (violates x) eqn:Hvx.
  - by rewrite keepLabel_violates.
  - rewrite keepLabel_keeps by done. by rewrite lookup_insert_ne.
Qed.

End label_facts.

(** ** Steps of the handler monad *)

Lemma lookup_snoc {A} (l : list A) (x : A) : (l ++ [x]) !! length l = Some x.
Proof. by apply list_lookup_middle. Qed.

Lemma insert_snoc {A} (l : list A) (x y : A) : <[length l := y]> (l ++ [x]) = l ++ [y].
Proof.
  rewrite insert_app_r_alt by done. by rewrite Nat.sub_diag.
Qed.

Lemma bind_run {A B} (m : M A) (f : A → M B) σ a σ' :
  m σ = (Done a, σ') → (m ≫= f) σ = f a σ'.
Proof. intros Hm. unfold mbind, M_bind. by rewrite Hm. Qed.

Lemma bind_panic {A B} (m : M A) (f : A → M B) σ msg σ' :
  m σ = (Panic msg, σ') → (m ≫= f) σ = (Panic msg, σ').
Proof. intros Hm. unfold mbind, M_bind. by rewrite Hm. Qed.

Lemma Builder_Set_run p n v b σ :
  builders σ !! p = Some b →
  Builder_Set p n v σ = (Done (), set_builders <[p := labels.Set_ b n v]> σ).
Proof. intros Hp. unfold Builder_Set. by rewrite Hp. Qed.

Lemma Builder_Labels_run p b σ :
  builders σ !! p = Some b →
  Builder_Labels p σ = (Done (labels.Labels_ b), σ).
Proof. intros Hp. unfold Builder_Labels. by rewrite Hp. Qed.

Section handler_facts.
Context `{Collaborators} (h : Handler).

Lemma length_cloudwatchEntries lbs events : ∀ tick,
  length (cloudwatchEntries lbs tick events) = length events.
Proof. induction events as [|e events IH]; intros tick; cbn; by rewrite ?IH. Qed.

Lemma Line_cloudwatchEntries lbs events : ∀ tick,
  Entry.Line <$> cloudwatchEntries lbs tick events = CloudwatchLogEvent.Message <$> events.
Proof. induction events as [|e events IH]; intros tick; cbn; by rewrite ?IH. Qed.

Lemma forEach_events p b events : ∀ σ,
  builders σ !! p = Some b →
  forEach events (λ event,
    lbs ← Builder_Labels p;
    now ← time_Now_;
    Send {| Entry.Labels := postProcessLabels h lbs;
            Entry.Timestamp := now;
            Entry.Line := CloudwatchLogEvent.Message event |}) σ
  = (Done (),
     {| builders := builders σ;
        sent := sent σ
                ++ cloudwatchEntries (postProcessLabels h (labels.Labels_ b))
                     (clock σ) events;
        errors := errors σ;
        recordsReceived := recordsReceived σ;
        logged := logged σ;
        w := w σ;
        clock := clock σ + length events |}).
Proof.
  induction events as [|event events IH]; intros σ Hp; cbn [forEach].
  - destruct σ; cbn. by rewrite app_nil_r, Nat.add_0_r.
  - erewrite bind_run; last first.
    { erewrite bind_run by (by apply Builder_Labels_run).
      erewrite bind_run by reflexivity. reflexivity. }
    rewrite IH by (by destruct σ).
    destruct σ; cbn. by rewrite <- app_assoc, Nat.add_succ_r.
Qed.

Lemma handleCloudwatchLogsRecord_parsed data commonLabels cwRecord σ :
  json_Unmarshal data = inr cwRecord →
  handleCloudwatchLogsRecord h data commonLabels σ
  = (Done None,
     {| builders := builders σ ++ [cloudwatchBuilder commonLabels cwRecord];
        sent := sent σ
                ++ cloudwatchEntries
                     (postProcessLabels h
                        (labels.Labels_ (cloudwatchBuilder commonLabels cwRecord)))
                     (clock σ) (CloudwatchLogsRecord.LogEvents cwRecord);
        errors := errors σ;
        recordsReceived := recordsReceived σ;
        logged := logged σ;
        w := w σ;
        clock := clock σ + length (CloudwatchLogsRecord.LogEvents cwRecord) |}).
Proof.
  intros Hjson. unfold handleCloudwatchLogsRecord. rewrite Hjson.
  erewrite bind_run by reflexivity.
  do 5 (erewrite bind_run;
        [|apply Builder_Set_run; cbn [builders set_builders];
          first [apply lookup_snoc | rewrite ?insert_snoc; apply lookup_snoc]]).
  erewrite bind_run; last first.
  { apply (forEach_events _ (cloudwatchBuilder commonLabels cwRecord)).
    cbn [builders set_builders]. rewrite !insert_snoc. apply lookup_snoc. }
  destruct σ; cbn. by rewrite !insert_snoc.
Qed.

Lemma handleCloudwatchLogsRecord_unparsed data commonLabels err σ :
  json_Unmarshal data = inl err →
  handleCloudwatchLogsRecord h data commonLabels σ = (Done (Some (LibraryError err)), σ).
Proof. intros Hjson. unfold handleCloudwatchLogsRecord. by rewrite Hjson. Qed.

Lemma sendAPIResponse_run firehoseID errMsg status σ :
  ResponseWriter.Status (w σ) = None →
  sendAPIResponse firehoseID errMsg status σ
  = (Done (),
     {| builders := builders σ; sent := sent σ; errors := errors σ;
        recordsReceived := recordsReceived σ; logged := logged σ;
        w := apiResponse firehoseID errMsg status (clock σ) (w σ);
        clock := S (clock σ) |}).
Proof.
  intros Hfresh. destruct σ as [bs es er rr lg [hd st wr] ck]. cbn in Hfresh. subst st.
  unfold sendAPIResponse, apiResponse, responseBody.
  do 3 (erewrite bind_run by reflexivity).
  by destruct (negb (String.eqb errMsg "")).
Qed.

Lemma http_Error_run err code σ :
  ResponseWriter.Status (w σ) = None →
  http_Error err code σ
  = (Done (),
     {| builders := builders σ; sent := sent σ; errors := errors σ;
        recordsReceived := recordsReceived σ; logged := logged σ;
        w := plainResponse err code (w σ);
        clock := clock σ |}).
Proof.
  intros Hfresh. destruct σ as [bs es er rr lg [hd st wr] ck]. cbn in Hfresh. subst st.
  unfold http_Error, plainResponse.
  do 3 (erewrite bind_run by reflexivity).
  reflexivity.
Qed.

(** Whatever the state of the response writer, [sendAPIResponse] returns
    and touches the writer and the clock only. *)
Lemma sendAPIResponse_frame firehoseID errMsg status σ :
  ∃ rw, sendAPIResponse firehoseID errMsg status σ
        = (Done (),
           {| builders := builders σ; sent := sent σ; errors := errors σ;
              recordsReceived := recordsReceived σ; logged := logged σ;
              w := rw; clock := S (clock σ) |}).
Proof.
  destruct σ as [bs es er rr lg rw ck].
  unfold sendAPIResponse.
  do 3 (erewrite bind_run by reflexivity).
  destruct (negb (String.eqb errMsg "")); by eexists.
Qed.

Section one_record.
Variables (firehoseReq : FirehoseRequest.t) (commonLabels : nat)
          (rec : FirehoseRecord.t) (σ : World).

Lemma serveRecord_panic msg :
  decodeRecord (FirehoseRecord.Data rec) = Panic msg →
  serveRecord h firehoseReq commonLabels rec σ = (Panic msg, σ).
Proof.
  intros Hdec. unfold serveRecord.
  erewrite bind_panic; [done|]. unfold lift. by rewrite Hdec.
Qed.

Lemma serveRecord_decode_error decodedRecord recordType err :
  decodeRecord (FirehoseRecord.Data rec) = Done (decodedRecord, recordType, Some err) →
  ResponseWriter.Status (w σ) = None →
  serveRecord h firehoseReq commonLabels rec σ
  = (Done false,
     {| builders := builders σ; sent := sent σ;
        errors := Inc "decode" (errors σ);
        recordsReceived := recordsReceived σ;
        logged := logged σ ++ [("error", "failed to decode request record")]%string;
        w := apiResponse (FirehoseRequest.RequestID firehoseReq)
               "failed to decode record" StatusBadRequest (clock σ) (w σ);
        clock := S (clock σ) |}).
Proof.
  intros Hdec Hfresh. unfold serveRecord.
  erewrite bind_run by (unfold lift; by rewrite Hdec).
  cbv beta iota.
  do 2 (erewrite bind_run by reflexivity).
  erewrite bind_run by (apply sendAPIResponse_run; by destruct σ).
  by destruct σ.
Qed.

Lemma serveRecord_direct decodedRecord b :
  decodeRecord (FirehoseRecord.Data rec) = Done (decodedRecord, OriginDirectPUT, None) →
  builders σ !! commonLabels = Some b →
  serveRecord h firehoseReq commonLabels rec σ
  = (Done true,
     {| builders := builders σ;
        sent := sent σ
                ++ [ {| Entry.Labels := postProcessLabels h (labels.Labels_ b);
                        Entry.Timestamp := time_Now (clock σ);
                        Entry.Line := string_of_bytes decodedRecord |} ];
        errors := errors σ;
        recordsReceived := Inc "direct-put" (recordsReceived σ);
        logged := logged σ;
        w := w σ;
        clock := S (clock σ) |}).
Proof.
  intros Hdec Hp. unfold serveRecord.
  erewrite bind_run by (unfold lift; by rewrite Hdec).
  cbv beta iota.
  erewrite bind_run by reflexivity.
  erewrite bind_run; last first.
  { erewrite bind_run by (apply Builder_Labels_run; by destruct σ).
    do 2 (erewrite bind_run by reflexivity). reflexivity. }
  by destruct σ.
Qed.

Lemma serveRecord_cloudwatch decodedRecord b cwRecord :
  decodeRecord (FirehoseRecord.Data rec)
  = Done (decodedRecord, OriginCloudwatchLogs, None) →
  json_Unmarshal decodedRecord = inr cwRecord →
  builders σ !! commonLabels = Some b →
  serveRecord h firehoseReq commonLabels rec σ
  = (Done true,
     {| builders := builders σ ++ [cloudwatchBuilder (labels.Labels_ b) cwRecord];
        sent := sent σ
                ++ cloudwatchEntries
                     (postProcessLabels h
                        (labels.Labels_ (cloudwatchBuilder (labels.Labels_ b) cwRecord)))
                     (clock σ) (CloudwatchLogsRecord.LogEvents cwRecord);
        errors := errors σ;
        recordsReceived := Inc "cloudwatch-logs" (recordsReceived σ);
        logged := logged σ;
        w := w σ;
        clock := clock σ + length (CloudwatchLogsRecord.LogEvents cwRecord) |}).
Proof.
  intros Hdec Hjson Hp. unfold serveRecord.
  erewrite bind_run by (unfold lift; by rewrite Hdec).
  cbv beta iota.
  erewrite bind_run by reflexivity.
  erewrite bind_run; last first.
  { erewrite bind_run by (apply Builder_Labels_run; by destruct σ).
    by apply handleCloudwatchLogsRecord_parsed. }
  by destruct σ.
Qed.

Lemma serveRecord_cloudwatch_error decodedRecord b err :
  decodeRecord (FirehoseRecord.Data rec)
  = Done (decodedRecord, OriginCloudwatchLogs, None) →
  json_Unmarshal decodedRecord = inl err →
  builders σ !! commonLabels = Some b →
  ResponseWriter.Status (w σ) = None →
  serveRecord h firehoseReq commonLabels rec σ
  = (Done false,
     {| builders := builders σ; sent := sent σ;
        errors := Inc "handle_cw" (errors σ);
        recordsReceived := Inc "cloudwatch-logs" (recordsReceived σ);
        logged := logged σ ++ [("error", "failed to handle cloudwatch record")]%string;
        w := apiResponse (FirehoseRequest.RequestID firehoseReq)
               "failed to handle cloudwatch record" StatusBadRequest (clock σ) (w σ);
        clock := S (clock σ) |}).
Proof.
  intros Hdec Hjson Hp Hfresh. unfold serveRecord.
  erewrite bind_run by (unfold lift; by rewrite Hdec).
  cbv beta iota.
  erewrite bind_run by reflexivity.
  erewrite bind_run; last first.
  { erewrite bind_run by (apply Builder_Labels_run; by destruct σ).
    by apply handleCloudwatchLogsRecord_unparsed. }
  cbv beta iota.
  do 2 (erewrite bind_run by reflexivity).
  erewrite bind_run by (apply sendAPIResponse_run; by destruct σ).
  by destruct σ.
Qed.

End one_record.

(** ** The loop and the request *)

Lemma serveRecords_cons firehoseReq commonLabels rec records σ :
  serveRecords h firehoseReq commonLabels (rec :: records) σ
  = match serveRecord h firehoseReq commonLabels rec σ with
    | (Done true, σ') => serveRecords h firehoseReq commonLabels records σ'
    | (Done false, σ') => (Done (), σ')
    | (Panic msg, σ') => (Panic msg, σ')
    end.
Proof.
  cbn [serveRecords]. unfold mbind, M_bind.
  by destruct (serveRecord h firehoseReq commonLabels rec σ) as [[[]|] ?].
Qed.

(** A record that ends the loop hides the records after it. *)
Lemma serveRecords_abort firehoseReq commonLabels rec front back : ∀ σ,
  (∀ σ0, (serveRecord h firehoseReq commonLabels rec σ0).1 ≠ Done true) →
  serveRecords h firehoseReq commonLabels (front ++ rec :: back) σ
  = serveRecords h firehoseReq commonLabels (front ++ [rec]) σ.
Proof.
  intros σ Hstop. revert σ.
  induction front as [|x front IH]; intros σ; cbn [app]; rewrite !serveRecords_cons.
  - specialize (Hstop σ).
    by destruct (serveRecord h firehoseReq commonLabels rec σ) as [[[]|] ?].
  - destruct (serveRecord h firehoseReq commonLabels x σ) as [[[]|] ?]; [|done..].
    apply IH.
Qed.

Lemma serveRecord_corrupt_stops firehoseReq commonLabels rec σ :
  base64.DecodeString (FirehoseRecord.Data rec) = None →
  (serveRecord h firehoseReq commonLabels rec σ).1 = Done false.
Proof.
  intros Hdec. unfold serveRecord.
  erewrite bind_run by (unfold lift; by rewrite decodeRecord_corrupt).
  cbv beta iota.
  do 2 (erewrite bind_run by reflexivity).
  edestruct sendAPIResponse_frame as [rw Hrw].
  erewrite bind_run by apply Hrw. done.
Qed.

Lemma buildCommonLabels_run req σ :
  buildCommonLabels req σ
  = (Done (length (builders σ)),
     set_builders (λ bs, bs ++ [commonBuilder req]) σ).
Proof.
  unfold buildCommonLabels, commonBuilder.
  erewrite bind_run by reflexivity.
  do 2 (erewrite bind_run;
        [|apply Builder_Set_run; cbn [builders set_builders];
          first [apply lookup_snoc | rewrite ?insert_snoc; apply lookup_snoc]]).
  destruct (negb (String.eqb (Request.Header_Get req "X-Scope-OrgID") "")).
  - erewrite bind_run;
      [|apply Builder_Set_run; cbn [builders set_builders];
        rewrite ?insert_snoc; apply lookup_snoc].
    destruct σ; unfold set_builders, mret, M_ret; cbn. by rewrite !insert_snoc.
  - erewrite bind_run by reflexivity.
    destruct σ; unfold set_builders, mret, M_ret; cbn. by rewrite !insert_snoc.
Qed.

(** The world in which the loop over the records starts *)
Lemma ServeHTTP_batch req firehoseReq σ :
  readBatch req = inr firehoseReq →
  ServeHTTP h req σ
  = serveRecords h firehoseReq (length (builders σ))
      (FirehoseRequest.Records firehoseReq)
      {| builders := builders σ ++ [commonBuilder req];
         sent := sent σ; errors := errors σ;
         recordsReceived := recordsReceived σ;
         logged := logged σ ++ [("info", "handling request")]%string;
         w := w σ; clock := clock σ |}.
Proof.
  unfold readBatch, ServeHTTP. intros Hread.
  erewrite bind_run by reflexivity.
  assert (Hbatch : ∀ r, json_Decode r = inr firehoseReq →
    decodeBatch h r req (set_logged (λ ls, ls ++ [("info", "handling request")]%string) σ)
    = serveRecords h firehoseReq (length (builders σ))
        (FirehoseRequest.Records firehoseReq)
        {| builders := builders σ ++ [commonBuilder req];
           sent := sent σ; errors := errors σ;
           recordsReceived := recordsReceived σ;
           logged := logged σ ++ [("info", "handling request")]%string;
           w := w σ; clock := clock σ |}).
  { intros r Hr. unfold decodeBatch. rewrite Hr.
    erewrite bind_run by apply buildCommonLabels_run. by destruct σ. }
  destruct (String.eqb _ "gzip").
  - destruct (gzip_NewReader (Request.Body req)); [done|]. by apply Hbatch.
  - by apply Hbatch.
Qed.

(** The request whose batch envelope cannot be read *)
Lemma ServeHTTP_unreadable req err σ :
  readBatch req = inl err →
  ResponseWriter.Status (w σ) = None →
  ∃ stage msg,
    ServeHTTP h req σ
    = (Done (),
       {| builders := builders σ; sent := sent σ;
          errors := Inc stage (errors σ);
          recordsReceived := recordsReceived σ;
          logged := logged σ ++ [("info", "handling request"); ("error", msg)]%string;
          w := plainResponse err StatusBadRequest (w σ);
          clock := clock σ |}).
Proof.
  unfold readBatch, ServeHTTP. intros Hread Hfresh.
  erewrite bind_run by reflexivity.
  assert (Hbatch : ∀ r, json_Decode r = inl err →
    decodeBatch h r req (set_logged (λ ls, ls ++ [("info", "handling request")]%string) σ)
    = (Done (),
       {| builders := builders σ; sent := sent σ;
          errors := Inc "read_or_format" (errors σ);
          recordsReceived := recordsReceived σ;
          logged := logged σ ++ [("info", "handling request");
                                 ("error", "failed to unmarshall request")]%string;
          w := plainResponse err StatusBadRequest (w σ);
          clock := clock σ |})).
  { intros r Hr. unfold decodeBatch. rewrite Hr.
    do 2 (erewrite bind_run by reflexivity).
    rewrite http_Error_run by (by destruct σ).
    destruct σ; cbn. by rewrite <- app_assoc. }
  destruct (String.eqb _ "gzip").
  - destruct (gzip_NewReader (Request.Body req)) as [e|r].
    + injection Hread as ->. exists "pre_read"%string, "failed to create gzip reader"%string.
      do 2 (erewrite bind_run by reflexivity).
      rewrite http_Error_run by (by destruct σ).
      destruct σ; cbn. by rewrite <- app_assoc.
    + eexists _, _. by apply Hbatch.
  - eexists _, _. by apply Hbatch.
Qed.

End handler_facts.

(** ** The label builder *)

Section builder_facts.
Import labels.

Lemma elem_of_insert_sorted l x ls : l ∈ insert_sorted x ls ↔ l = x ∨ l ∈ ls.
Proof.
  induction ls as [|y ls IH]; cbn [insert_sorted].
  - rewrite list_elem_of_singleton, elem_of_nil. tauto.
  - destruct (String.leb (Name x) (Name y)).
    + by rewrite elem_of_cons.
    + rewrite !elem_of_cons, IH. tauto.
Qed.

Lemma elem_of_sort l ls : l ∈ sort ls ↔ l ∈ ls.
Proof.
  unfold sort. induction ls as [|x ls IH]; cbn [foldr]; [done|].
  by rewrite elem_of_insert_sorted, elem_of_cons, IH.
Qed.

Lemma elem_of_Labels_fresh b l : base b = [] → l ∈ Labels_ b ↔ l ∈ add b.
Proof.
  intros Hbase. unfold Labels_. rewrite Hbase.
  destruct (del b), (add b); rewrite ?elem_of_sort; cbn; by rewrite ?elem_of_nil.
Qed.

Lemma base_Set_ b n v : base (Set_ b n v) = base b.
Proof. unfold Set_, Del. by destruct (bool_decide (v = "")). Qed.

Lemma elem_of_set_add l ls n v :
  l ∈ set_add ls n v → l = {| Name := n; Value := v |} ∨ l ∈ ls.
Proof.
  induction ls as [|x ls IH]; cbn [set_add].
  - rewrite list_elem_of_singleton. by left.
  - destruct (bool_decide (Name x = n)); rewrite !elem_of_cons; [tauto|].
    intros [->|Hl]; [by right; left|]. destruct (IH Hl); by auto.
Qed.

Lemma set_add_new ls n v : {| Name := n; Value := v |} ∈ set_add ls n v.
Proof.
  induction ls as [|x ls IH]; cbn [set_add]; [by left|].
  destruct (bool_decide (Name x = n)); [by left|by right].
Qed.

Lemma set_add_other l ls n v : l ∈ ls → Name l ≠ n → l ∈ set_add ls n v.
Proof.
  intros Hl Hn. induction ls as [|x ls IH]; cbn [set_add]; [by apply elem_of_nil in Hl|].
  apply elem_of_cons in Hl as [->|Hl].
  - rewrite bool_decide_eq_false_2 by done. by left.
  - destruct (bool_decide (Name x = n)); right; by auto.
Qed.

(** After [Set], a pending label is the one just set or was pending. *)
Lemma elem_of_add_Set_ l b n v :
  l ∈ add (Set_ b n v) → Name l = n ∨ l ∈ add b.
Proof.
  unfold Set_, Del. destruct (bool_decide (v = "")); cbn [add].
  - rewrite list_elem_of_filter. tauto.
  - intros [->|Hl]%elem_of_set_add; by auto.
Qed.

Lemma add_Set_new b n v : v ≠ "" → {| Name := n; Value := v |} ∈ add (Set_ b n v).
Proof.
  intros Hv. unfold Set_. rewrite bool_decide_eq_false_2 by done. apply set_add_new.
Qed.

Lemma add_Set_other l b n v : l ∈ add b → Name l ≠ n → l ∈ add (Set_ b n v).
Proof.
  intros Hl Hn. unfold Set_, Del. destruct (bool_decide (v = "")); cbn [add].
  - apply list_elem_of_filter. split; [|done]. by apply bool_decide_pack.
  - by apply set_add_other.
Qed.

End builder_facts.

(** ** The common labels of a batch *)

Section common_labels.
Context `{Collaborators}.

Lemma commonBuilder_base req : labels.base (commonBuilder req) = [].
Proof.
  unfold commonBuilder. destruct (negb _); by rewrite !base_Set_.
Qed.

(** The common labels have the names of the request id, the source ARN
    and the tenant, and no other. *)
Lemma commonLabels_names req l :
  l ∈ labels.Labels_ (commonBuilder req) →
  labels.Name l ∈ ["__aws_firehose_request_id"; "__aws_firehose_source_arn";
                   ReservedLabelTenantID]%string.
Proof.
  rewrite elem_of_Labels_fresh by apply commonBuilder_base.
  unfold commonBuilder. intros Hl.
  assert (Htwo : ∀ b, l ∈ labels.add
             (labels.Set_ (labels.Set_ (labels.NewBuilder []) "__aws_firehose_request_id"
                             (Request.Header_Get req "X-Amz-Firehose-Request-Id"))
                          "__aws_firehose_source_arn" b) →
           labels.Name l ∈ ["__aws_firehose_request_id"; "__aws_firehose_source_arn";
                            ReservedLabelTenantID]%string).
  { intros b [->|[->|Hnil]%elem_of_add_Set_]%elem_of_add_Set_.
    - set_solver.
    - set_solver.
    - by apply elem_of_nil in Hnil. }
  destruct (negb _).
  - apply elem_of_add_Set_ in Hl as [->|Hl]; [set_solver|]. by eapply Htwo.
  - by eapply Htwo.
Qed.

(** A header that is not empty is a common label, unless the name of the
    tenant label is the same. *)
Lemma commonLabels_request_id req :
  Request.Header_Get req "X-Amz-Firehose-Request-Id" ≠ "" →
  ReservedLabelTenantID ≠ "__aws_firehose_request_id" →
  {| labels.Name := "__aws_firehose_request_id";
     labels.Value := Request.Header_Get req "X-Amz-Firehose-Request-Id" |}
    ∈ labels.Labels_ (commonBuilder req).
Proof.
  intros Hv Hne. rewrite elem_of_Labels_fresh by apply commonBuilder_base.
  unfold commonBuilder.
  assert (Htwo : {| labels.Name := "__aws_firehose_request_id";
                    labels.Value := Request.Header_Get req "X-Amz-Firehose-Request-Id" |}
            ∈ labels.add
                (labels.Set_
                   (labels.Set_ (labels.NewBuilder []) "__aws_firehose_request_id"
                      (Request.Header_Get req "X-Amz-Firehose-Request-Id"))
                   "__aws_firehose_source_arn"
                   (Request.Header_Get req "X-Amz-Firehose-Source-Arn"))).
  { apply add_Set_other; [by apply add_Set_new|done]. }
  destruct (negb _); [|done]. apply add_Set_other; [done|]. cbn. congruence.
Qed.

Lemma commonLabels_source_arn req :
  Request.Header_Get req "X-Amz-Firehose-Source-Arn" ≠ "" →
  ReservedLabelTenantID ≠ "__aws_firehose_source_arn" →
  {| labels.Name := "__aws_firehose_source_arn";
     labels.Value := Request.Header_Get req "X-Amz-Firehose-Source-Arn" |}
    ∈ labels.Labels_ (commonBuilder req).
Proof.
  intros Hv Hne. rewrite elem_of_Labels_fresh by apply commonBuilder_base.
  unfold commonBuilder.
  assert (Htwo : {| labels.Name := "__aws_firehose_source_arn";
                    labels.Value := Request.Header_Get req "X-Amz-Firehose-Source-Arn" |}
            ∈ labels.add
                (labels.Set_
                   (labels.Set_ (labels.NewBuilder []) "__aws_firehose_request_id"
                      (Request.Header_Get req "X-Amz-Firehose-Request-Id"))
                   "__aws_firehose_source_arn"
                   (Request.Header_Get req "X-Amz-Firehose-Source-Arn"))).
  { by apply add_Set_new. }
  destruct (negb _); [|done]. apply add_Set_other; [done|]. cbn. congruence.
Qed.

End common_labels.

(** ** How a record and a batch end *)

Section outcomes.
Context `{Collaborators} (h : Handler).

Lemma decodeRecord_unknown rec decodedRecord err :
  decodeRecord rec = Done (decodedRecord, OriginUnknown, err) → err ≠ None.
Proof.
  unfold decodeRecord. destruct (base64.DecodeString rec) as [d|]; [|by intros [= <- <-]].
  destruct (isGzipHeader d) as [[]|]; cbn; [| |done].
  - destruct (gzip_NewReader d) as [?|r]; [done|].
    by destruct (io_Copy [] r) as [? []].
  - done.
Qed.

(** One record, from a world in which the common labels are on the heap
    and no response is written yet: the loop goes on with the response
    writer and the common labels as they were, or it stops after a 400
    response in the format of the Firehose API and without having
    forwarded anything, or the decoder panicked and nothing changed. *)
Lemma serveRecord_outcome firehoseReq commonLabels rec b σ :
  builders σ !! commonLabels = Some b →
  ResponseWriter.Status (w σ) = None →
  match serveRecord h firehoseReq commonLabels rec σ with
  | (Done true, σ') =>
      w σ' = w σ ∧ builders σ' !! commonLabels = Some b
  | (Done false, σ') =>
      sent σ' = sent σ
      ∧ ∃ errMsg, errMsg ≠ ""
          ∧ w σ' = apiResponse (FirehoseRequest.RequestID firehoseReq) errMsg
                     StatusBadRequest (clock σ) (w σ)
  | (Panic _, σ') => σ' = σ
  end.
Proof.
  intros Hp Hfresh.
  destruct (decodeRecord (FirehoseRecord.Data rec)) as [[[d o] [e|]]|msg] eqn:Hdec.
  - erewrite serveRecord_decode_error by done. cbn. split; [done|].
    by exists "failed to decode record"%string.
  - destruct o.
    + destruct (json_Unmarshal d) as [e|cw] eqn:Hjson.
      * erewrite serveRecord_cloudwatch_error by done. cbn. split; [done|].
        by exists "failed to handle cloudwatch record"%string.
      * erewrite serveRecord_cloudwatch by done. cbn. split; [done|].
        by apply lookup_app_l_Some.
    + erewrite serveRecord_direct by done. by cbn.
    + by apply decodeRecord_unknown in Hdec.
  - by erewrite serveRecord_panic.
Qed.

(** A batch whose envelope was read: unless the decoder panics, the
    response is the one of [sendAPIResponse], a 200 without an error
    message or a 400 with one. *)
Lemma serveRecords_outcome firehoseReq commonLabels b records : ∀ σ,
  builders σ !! commonLabels = Some b →
  ResponseWriter.Status (w σ) = None →
  match serveRecords h firehoseReq commonLabels records σ with
  | (Done _, σ') =>
      ∃ errMsg status tick,
        w σ' = apiResponse (FirehoseRequest.RequestID firehoseReq) errMsg status tick (w σ)
        ∧ (status = StatusOK ∧ errMsg = "" ∨ status = StatusBadRequest ∧ errMsg ≠ "")
  | (Panic _, σ') => w σ' = w σ
  end.
Proof.
  induction records as [|rec records IH]; intros σ Hp Hfresh.
  - cbn [serveRecords]. rewrite sendAPIResponse_run by done. cbn.
    eexists "", StatusOK, _. split; [done|by left].
  - rewrite serveRecords_cons.
    pose proof (serveRecord_outcome firehoseReq commonLabels rec b σ Hp Hfresh) as Hrec.
    destruct (serveRecord h firehoseReq commonLabels rec σ) as [[[]|msg] σ1].
    + destruct Hrec as [Hw Hp1].
      specialize (IH σ1 Hp1 ltac:(by rewrite Hw)).
      destruct (serveRecords h firehoseReq commonLabels records σ1) as [[[]|] σ2];
        by rewrite <- Hw.
    + destruct Hrec as (_ & errMsg & Hmsg & Hw).
      eexists errMsg, StatusBadRequest, _. split; [done|by right].
    + by subst.
Qed.

(** A record that is not base64: the records after it are not looked at,
    and the batch ends in a 400 response unless the decoder panicked on a
    record before it. *)
Lemma serveRecords_corrupt firehoseReq commonLabels b front rec back σ :
  base64.DecodeString (FirehoseRecord.Data rec) = None →
  builders σ !! commonLabels = Some b →
  ResponseWriter.Status (w σ) = None →
  serveRecords h firehoseReq commonLabels (front ++ rec :: back) σ
  = serveRecords h firehoseReq commonLabels (front ++ [rec]) σ
  ∧ match serveRecords h firehoseReq commonLabels (front ++ rec :: back) σ with
    | (Done _, σ') =>
        ∃ errMsg tick, errMsg ≠ ""
          ∧ w σ' = apiResponse (FirehoseRequest.RequestID firehoseReq) errMsg
                     StatusBadRequest tick (w σ)
    | (Panic _, σ') => w σ' = w σ
    end.
Proof.
  intros Hdec Hp Hfresh. split.
  { apply serveRecords_abort. intros σ0.
    by rewrite serveRecord_corrupt_stops. }
  revert σ Hp Hfresh.
  induction front as [|x front IH]; intros σ Hp Hfresh; cbn [app];
    rewrite serveRecords_cons.
  - rewrite (serveRecord_decode_error h _ _ _ _ [] OriginUnknown
               (Errorf "error base64-decoding record: " CorruptInputError))
      by (by try apply decodeRecord_corrupt).
    cbn. by exists "failed to decode record"%string, (clock σ).
  - pose proof (serveRecord_outcome firehoseReq commonLabels x b σ Hp Hfresh) as Hrec.
    destruct (serveRecord h firehoseReq commonLabels x σ) as [[[]|msg] σ1].
    + destruct Hrec as [Hw Hp1].
      specialize (IH σ1 Hp1 ltac:(by rewrite Hw)).
      destruct (serveRecords h firehoseReq commonLabels (front ++ rec :: back) σ1)
        as [[[]|] σ2]; by rewrite <- Hw.
    + destruct Hrec as (_ & errMsg & Hmsg & Hw). by exists errMsg, (clock σ).
    + by subst.
Qed.

End outcomes.

(** ** The handler on the examples *)

(** Three records, the second of which is not base64: the first is
    forwarded, the third is not, the answer is a 400 with the request id. *)
Example ServeHTTP_three_records :
  let r := ServeHTTP examples.keepRules (examples.postGzip examples.threeBatch) initial in
  r.1 = Done ()
  ∧ ResponseWriter.Status (w r.2) = Some StatusBadRequest
  ∧ ResponseWriter.Written (w r.2)
    = errorResponse "a1af4300-6c09-4916-ba8f-12f336176246" 1700000000
        "failed to decode record"
  ∧ Entry.Line <$> sent r.2 = ["hello world"%string]
  ∧ map_to_list (errors r.2) = [("decode"%string, 1%nat)].
Proof. vm_compute. repeat split. Qed.

(** A direct-put record, a CloudWatch record with two events and another
    direct-put record: four entries in the order of the batch, each with
    the two labels that the relabelling rules copied. *)
Example ServeHTTP_cloudwatch_batch :
  let r := ServeHTTP examples.keepRules (examples.post examples.cloudwatchBatch) initial in
  r.1 = Done ()
  ∧ ResponseWriter.Status (w r.2) = Some StatusOK
  ∧ Entry.Line <$> sent r.2
    = ["hello world"; "first line"; "second line"; "hello world"]%string
  ∧ Forall (λ e, dom (Entry.Labels e) = {["aws_request_id"; "aws_source_arn"]}%string)
      (sent r.2)
  ∧ map_to_list (recordsReceived r.2)
    = [("cloudwatch-logs"%string, 1%nat); ("direct-put"%string, 2%nat)].
Proof.
  vm_compute. repeat split.
  repeat constructor.
Qed.

(** An empty record before a record that is not base64: the handler panics
    on the first one and writes no response. *)
Example ServeHTTP_short_record_panics :
  let r := ServeHTTP examples.noRules (examples.post examples.shortBatch) initial in
  r.1 = Panic "index out of range"
  ∧ w r.2 = ResponseWriter.fresh
  ∧ sent r.2 = [].
Proof. vm_compute. repeat split. Qed.

(** ** The builder of a CloudWatch record *)

Lemma elem_of_Labels_of_add l b : l ∈ labels.add b → l ∈ labels.Labels_ b.
Proof.
  intros Hl. unfold labels.Labels_.
  destruct (labels.del b); destruct (labels.add b) as [|a adds] eqn:Hadd;
    try (by apply elem_of_nil in Hl);
    apply elem_of_sort, elem_of_app; by right.
Qed.

Section cloudwatch_builder.
Context `{Collaborators}.

Lemma cloudwatchBuilder_message_type commonLabels cwRecord :
  cloudwatchBuilder commonLabels cwRecord
  = labels.Set_ (originBuilder commonLabels cwRecord) "__aws_cw_msg_type"
      (CloudwatchLogsRecord.MessageType cwRecord).
Proof. reflexivity. Qed.

Lemma originLabels_present commonLabels cwRecord n v :
  (n, v) ∈ originLabels cwRecord →
  v ≠ "" →
  {| labels.Name := n; labels.Value := v |}
    ∈ labels.Labels_ (cloudwatchBuilder commonLabels cwRecord).
Proof.
  intros Hnv Hv. apply elem_of_Labels_of_add. unfold cloudwatchBuilder, originLabels in *.
  repeat (apply elem_of_cons in Hnv as [[= -> ->]|Hnv];
          [repeat (first [by apply add_Set_new | apply add_Set_other; [|by cbn]])|]).
  by apply elem_of_nil in Hnv.
Qed.

End cloudwatch_builder.

(** * The claims *)

Section claims.
Context `{Collaborators} (h : Handler).

(** C1, where the code departs from the claim.  A record that decodes to
    fewer than three bytes is read at an index it does not have as soon
    as what it has agrees with the magic bytes [1f 8b 08]: the empty
    record, the record [1f] and the record [1f 8b] make [decodeRecord]
    panic instead of returning them as direct-put. *)
Theorem decodeRecord_short_magic_panics :
  base64.DecodeString "" = Some []
  ∧ base64.DecodeString "Hw==" = Some [Byte.x1f]
  ∧ base64.DecodeString "H4s=" = Some [Byte.x1f; Byte.x8b]
  ∧ decodeRecord "" = Panic "index out of range"
  ∧ decodeRecord "Hw==" = Panic "index out of range"
  ∧ decodeRecord "H4s=" = Panic "index out of range".
Proof.
  do 3 (split; [reflexivity|]).
  split; [|split].
  - rewrite (decodeRecord_short "" []); [done|done|cbn; lia].
  - rewrite (decodeRecord_short "Hw==" [Byte.x1f]); [done|done|cbn; lia].
  - rewrite (decodeRecord_short "H4s=" [Byte.x1f; Byte.x8b]); [done|done|cbn; lia].
Qed.

Section gzip_round_trip.
(** The writer of compress/gzip: its output starts with the two
    identification bytes and the deflate method, and the reader of the
    same library gives the data back. *)
Variable gzip_compress : bytes → bytes.
Hypothesis gzip_compress_header : ∀ b,
  ∃ rest, gzip_compress b = gzipID1 :: gzipID2 :: gzipDeflate :: rest.
Hypothesis gzip_compress_inflate : ∀ b,
  ∃ gzipReader, gzip_NewReader (gzip_compress b) = inr gzipReader
                ∧ gzip_drain gzipReader = (b, None).

(** C2.  Bytes that are gzipped and then base64-encoded are decoded to
    themselves, with the origin cloudwatch-logs and no error. *)
Theorem decodeRecord_gzip_base64_round_trip b :
  decodeRecord (base64.EncodeToString (gzip_compress b))
  = Done (b, OriginCloudwatchLogs, None).
Proof.
  destruct (gzip_compress_header b) as [rest Hhd].
  destruct (gzip_compress_inflate b) as (gzipReader & Hnew & Hdrain).
  eapply decodeRecord_gzip; [apply DecodeString_EncodeToString| | |done..].
  - by rewrite Hhd.
  - rewrite Hhd. cbn. lia.
Qed.
End gzip_round_trip.

(** C3, where the code departs from the claim.  In a batch whose first
    record is empty and whose second record is not base64, the loop
    panics on the first record: no response is written, the world is as
    it was. *)
Theorem serveRecords_short_then_corrupt_panics firehoseReq commonLabels σ :
  base64.DecodeString "" = Some []
  ∧ base64.DecodeString "!!!!" = None
  ∧ serveRecords h firehoseReq commonLabels
      [ {| FirehoseRecord.Data := "" |}; {| FirehoseRecord.Data := "!!!!" |} ] σ
    = (Panic "index out of range", σ).
Proof.
  do 2 (split; [reflexivity|]).
  rewrite serveRecords_cons, (serveRecord_panic h _ _ _ _ "index out of range"); [done|].
  rewrite (decodeRecord_short "" []); [done|done|cbn; lia].
Qed.

(** C4, where the code departs from the claim.  When the body cannot be
    unzipped or the batch envelope cannot be decoded, the response is the
    one of [http.Error]: plain text, the text of the library's error, no
    request id. *)
Theorem ServeHTTP_unreadable_plain_text req err σ :
  readBatch req = inl err →
  w σ = ResponseWriter.fresh →
  ∃ σ', ServeHTTP h req σ = (Done (), σ')
    ∧ ResponseWriter.Status (w σ') = Some StatusBadRequest
    ∧ ResponseWriter.Header (w σ') !! "Content-Type"
      = Some "text/plain; charset=utf-8"%string
    ∧ ResponseWriter.Written (w σ') = err +:+ String "010"%char EmptyString.
Proof.
  intros Hread Hfresh.
  destruct (ServeHTTP_unreadable h req err σ Hread) as (stage & msg & Hrun).
  { by rewrite Hfresh. }
  eexists. split; [exact Hrun|]. cbn. rewrite Hfresh. by cbn.
Qed.

(** C5, amended.  A CloudWatch envelope of type CONTROL_MESSAGE is
    handled without an error and, like any other envelope, forwards one
    entry for each of its log events: none exactly when it has none.  The
    line of an entry is the message of its event.  The type of the message
    is not inspected: it is the value that the builder of the record gets
    for [__aws_cw_msg_type], and the same envelope with the type
    DATA_MESSAGE is handled in the same way, with the same lines and time
    stamps, and differs in the value of that label only. *)
Theorem control_message_entries data commonLabels cwRecord σ :
  json_Unmarshal data = inr cwRecord →
  CloudwatchLogsRecord.MessageType cwRecord = "CONTROL_MESSAGE"%string →
  ∃ new σ',
    handleCloudwatchLogsRecord h data commonLabels σ = (Done None, σ')
    ∧ sent σ' = sent σ ++ new
    ∧ length new = length (CloudwatchLogsRecord.LogEvents cwRecord)
    ∧ (new = [] ↔ CloudwatchLogsRecord.LogEvents cwRecord = [])
    ∧ Entry.Line <$> new
      = CloudwatchLogEvent.Message <$> CloudwatchLogsRecord.LogEvents cwRecord
    ∧ new
      = cloudwatchEntries
          (postProcessLabels h
             (labels.Labels_
                (labels.Set_ (originBuilder commonLabels cwRecord)
                   "__aws_cw_msg_type" "CONTROL_MESSAGE")))
          (clock σ) (CloudwatchLogsRecord.LogEvents cwRecord)
    ∧ builders σ'
      = builders σ
        ++ [labels.Set_ (originBuilder commonLabels cwRecord)
              "__aws_cw_msg_type" "CONTROL_MESSAGE"]
    ∧ ∀ data',
        json_Unmarshal data' = inr (withMessageType "DATA_MESSAGE" cwRecord) →
        ∃ new' σ'',
          handleCloudwatchLogsRecord h data' commonLabels σ = (Done None, σ'')
          ∧ sent σ'' = sent σ ++ new'
          ∧ new'
            = cloudwatchEntries
                (postProcessLabels h
                   (labels.Labels_
                      (labels.Set_ (originBuilder commonLabels cwRecord)
                         "__aws_cw_msg_type" "DATA_MESSAGE")))
                (clock σ) (CloudwatchLogsRecord.LogEvents cwRecord)
          ∧ Entry.Line <$> new' = Entry.Line <$> new
          ∧ Entry.Timestamp <$> new' = Entry.Timestamp <$> new
          ∧ builders σ''
            = builders σ
              ++ [labels.Set_ (originBuilder commonLabels cwRecord)
                    "__aws_cw_msg_type" "DATA_MESSAGE"]
          ∧ errors σ'' = errors σ' ∧ recordsReceived σ'' = recordsReceived σ'
          ∧ logged σ'' = logged σ' ∧ w σ'' = w σ' ∧ clock σ'' = clock σ'.
Proof.
  intros Hjson Hmt. eexists _, _.
  split; [by apply handleCloudwatchLogsRecord_parsed|]. cbn.
  rewrite cloudwatchBuilder_message_type, Hmt.
  split; [done|].
  split; [apply length_cloudwatchEntries|].
  split; [by destruct (CloudwatchLogsRecord.LogEvents cwRecord)|].
  split; [apply Line_cloudwatchEntries|].
  split; [done|]. split; [done|].
  intros data' Hjson'. eexists _, _.
  split; [by apply handleCloudwatchLogsRecord_parsed|]. cbn.
  split; [done|]. split; [done|].
  split; [by rewrite !Line_cloudwatchEntries|].
  split; [|done].
  generalize (clock σ).
  induction (CloudwatchLogsRecord.LogEvents cwRecord) as [|e es IH]; intros tick; [done|].
  cbn. f_equal. apply IH.
Qed.

(** C6, amended.  A direct-put record forwards one entry; its line is the
    base64 decoding of the record, verbatim; its labels are the
    post-processing of the common labels of the batch.  The common labels
    are named after the request id, the source ARN and the tenant only,
    and hold the request id and the source ARN whenever their headers are
    not empty; but the entry has no label whose name starts with the
    internal prefix, the tenant label apart, and so neither those two nor
    any label of a CloudWatch record. *)
Theorem direct_put_entry req firehoseReq commonLabels rec decodedRecord σ :
  builders σ !! commonLabels = Some (commonBuilder req) →
  decodeRecord (FirehoseRecord.Data rec) = Done (decodedRecord, OriginDirectPUT, None) →
  ∃ entry σ',
    serveRecord h firehoseReq commonLabels rec σ = (Done true, σ')
    ∧ sent σ' = sent σ ++ [entry]
    ∧ base64.DecodeString (FirehoseRecord.Data rec) = Some decodedRecord
    ∧ Entry.Line entry = string_of_bytes decodedRecord
    ∧ Entry.Labels entry = postProcessLabels h (labels.Labels_ (commonBuilder req))
    ∧ (∀ l, l ∈ labels.Labels_ (commonBuilder req) →
            labels.Name l ∈ ["__aws_firehose_request_id"; "__aws_firehose_source_arn";
                             ReservedLabelTenantID]%string)
    ∧ (Request.Header_Get req "X-Amz-Firehose-Request-Id" ≠ "" →
       ReservedLabelTenantID ≠ "__aws_firehose_request_id" →
       {| labels.Name := "__aws_firehose_request_id";
          labels.Value := Request.Header_Get req "X-Amz-Firehose-Request-Id" |}
         ∈ labels.Labels_ (commonBuilder req))
    ∧ (Request.Header_Get req "X-Amz-Firehose-Source-Arn" ≠ "" →
       ReservedLabelTenantID ≠ "__aws_firehose_source_arn" →
       {| labels.Name := "__aws_firehose_source_arn";
          labels.Value := Request.Header_Get req "X-Amz-Firehose-Source-Arn" |}
         ∈ labels.Labels_ (commonBuilder req))
    ∧ (∀ n, String.prefix "__" n = true → n ≠ ReservedLabelTenantID →
            Entry.Labels entry !! n = None).
Proof.
  intros Hp Hdec. eexists _, _.
  split; [by eapply serveRecord_direct|]. cbn.
  split; [done|]. split; [by apply decodeRecord_direct in Hdec as [? _]|].
  split; [done|]. split; [done|].
  split; [apply commonLabels_names|].
  split; [apply commonLabels_request_id|].
  split; [apply commonLabels_source_arn|].
  intros n Hpre Hn.
  destruct (postProcessLabels h (labels.Labels_ (commonBuilder req)) !! n) as [v|] eqn:Hv;
    [|done].
  apply postProcessLabels_lookup in Hv as [_ Hv].
  apply violates_false in Hv as [Hv _]. cbn in Hv. by destruct Hn; apply Hv.
Qed.

(** C7.  Whatever labels go into the post-processing, and whatever the
    relabelling makes of them, a label of the emitted set is one of the
    relabelled labels, its name does not start with the internal prefix
    unless it is the tenant label, and its name and its value are valid
    for the label grammar: no label that breaks one of the conditions is
    emitted. *)
Theorem postProcessLabels_sound lbs n v :
  postProcessLabels h lbs !! n = Some v →
  {| labels.Name := n; labels.Value := v |} ∈ relabelled h lbs
  ∧ (String.prefix "__" n = true → n = ReservedLabelTenantID)
  ∧ LabelName_IsValid n = true
  ∧ LabelValue_IsValid v = true
  ∧ violates {| labels.Name := n; labels.Value := v |} = false.
Proof.
  intros [Hin Hv]%postProcessLabels_lookup.
  split; [done|]. by destruct (violates_false _ Hv) as (? & ? & ?).
Qed.

(** C8.  A request whose batch envelope is read and has no records is
    answered with 200 and the success body that carries the request id of
    the batch; nothing is forwarded. *)
Theorem ServeHTTP_empty_batch req firehoseReq σ :
  readBatch req = inr firehoseReq →
  FirehoseRequest.Records firehoseReq = [] →
  w σ = ResponseWriter.fresh →
  ∃ σ', ServeHTTP h req σ = (Done (), σ')
    ∧ sent σ' = sent σ
    ∧ ResponseWriter.Status (w σ') = Some StatusOK
    ∧ ResponseWriter.Written (w σ')
      = successResponse (FirehoseRequest.RequestID firehoseReq)
          (Time_Unix (time_Now (clock σ)))
    ∧ ResponseWriter.Header (w σ') !! "Content-Type" = Some "application/json"%string.
Proof.
  intros Hread Hrecords Hfresh.
  rewrite (ServeHTTP_batch h req firehoseReq σ Hread), Hrecords.
  cbn [serveRecords]. rewrite sendAPIResponse_run by (cbn; by rewrite Hfresh).
  eexists. split; [done|]. cbn. rewrite Hfresh. by cbn.
Qed.

(** C9.  A CloudWatch record that parses forwards one entry for each of
    its log events, in their order, the line of an entry being the
    message of its event, whatever the type of the message. *)
Theorem handleCloudwatchLogsRecord_one_entry_per_event data commonLabels cwRecord σ :
  json_Unmarshal data = inr cwRecord →
  ∃ new σ',
    handleCloudwatchLogsRecord h data commonLabels σ = (Done None, σ')
    ∧ sent σ' = sent σ ++ new
    ∧ Entry.Line <$> new
      = CloudwatchLogEvent.Message <$> CloudwatchLogsRecord.LogEvents cwRecord.
Proof.
  intros Hjson. eexists _, _.
  split; [by apply handleCloudwatchLogsRecord_parsed|]. cbn. split; [done|].
  apply Line_cloudwatchEntries.
Qed.

(** C10.  Whatever a record is and however its processing ends, the
    builders that were on the heap are as they were, the builder of the
    common labels among them, so that the next record is given the same
    common labels; a builder that the record allocated has the common
    labels as its base.  A CloudWatch record that parses allocates exactly
    one builder: it is new on the heap, seeded with the common labels and
    extended with the labels of the envelope, and the entries of the record
    carry its labels; a direct-put record allocates none. *)
Theorem serveRecord_common_labels_frame firehoseReq commonLabels rec b σ :
  builders σ !! commonLabels = Some b →
  ∃ fresh,
    builders (serveRecord h firehoseReq commonLabels rec σ).2 = builders σ ++ fresh
    ∧ Forall (λ nb, labels.base nb = labels.Labels_ b) fresh
    ∧ Builder_Labels commonLabels (serveRecord h firehoseReq commonLabels rec σ).2
      = (Done (labels.Labels_ b), (serveRecord h firehoseReq commonLabels rec σ).2)
    ∧ (∀ decodedRecord cwRecord,
         decodeRecord (FirehoseRecord.Data rec)
         = Done (decodedRecord, OriginCloudwatchLogs, None) →
         json_Unmarshal decodedRecord = inr cwRecord →
         fresh = [cloudwatchBuilder (labels.Labels_ b) cwRecord]
         ∧ builders (serveRecord h firehoseReq commonLabels rec σ).2 !! length (builders σ)
           = Some (cloudwatchBuilder (labels.Labels_ b) cwRecord)
         ∧ (∀ n v, (n, v) ∈ originLabels cwRecord → v ≠ "" →
                   {| labels.Name := n; labels.Value := v |}
                     ∈ labels.Labels_ (cloudwatchBuilder (labels.Labels_ b) cwRecord))
         ∧ sent (serveRecord h firehoseReq commonLabels rec σ).2
           = sent σ
             ++ cloudwatchEntries
                  (postProcessLabels h
                     (labels.Labels_ (cloudwatchBuilder (labels.Labels_ b) cwRecord)))
                  (clock σ) (CloudwatchLogsRecord.LogEvents cwRecord))
    ∧ (∀ decodedRecord,
         decodeRecord (FirehoseRecord.Data rec) = Done (decodedRecord, OriginDirectPUT, None) →
         fresh = []).
Proof.
  intros Hp.
  assert (Hstop : ∀ stage line errMsg (recv : gmap string nat → gmap string nat),
    ∃ rw, (modify (set_errors (Inc stage));;
           level_Error line;;
           sendAPIResponse (FirehoseRequest.RequestID firehoseReq) errMsg
             StatusBadRequest;;
           mret false)
            (set_recordsReceived recv σ)
          = (Done false,
             {| builders := builders σ; sent := sent σ;
                errors := Inc stage (errors σ);
                recordsReceived := recv (recordsReceived σ);
                logged := logged σ ++ [("error"%string, line)];
                w := rw; clock := S (clock σ) |})).
  { intros stage line errMsg recv.
    do 2 (erewrite bind_run by reflexivity).
    edestruct sendAPIResponse_frame as [rw Hrw].
    erewrite bind_run by apply Hrw. exists rw. by destruct σ. }
  destruct (decodeRecord (FirehoseRecord.Data rec)) as [[[d o] [e|]]|msg] eqn:Hdec.
  - exists []. unfold serveRecord.
    erewrite bind_run by (unfold lift; by rewrite Hdec). cbv beta iota.
    destruct (Hstop "decode"%string "failed to decode request record"%string
                    "failed to decode record"%string id) as [rw Hrw].
    replace (set_recordsReceived id σ) with σ in Hrw by (by destruct σ).
    rewrite Hrw. cbn. rewrite app_nil_r.
    split; [done|]. split; [done|]. split; [by apply Builder_Labels_run|].
    split; [by intros|done].
  - destruct o.
    + destruct (json_Unmarshal d) as [e|cw] eqn:Hjson.
      * exists []. unfold serveRecord.
        erewrite bind_run by (unfold lift; by rewrite Hdec). cbv beta iota.
        erewrite bind_run by reflexivity.
        erewrite bind_run; last first.
        { erewrite bind_run by (apply Builder_Labels_run; by destruct σ).
          by apply handleCloudwatchLogsRecord_unparsed. }
        cbv beta iota.
        destruct (Hstop "handle_cw"%string "failed to handle cloudwatch record"%string
                        "failed to handle cloudwatch record"%string
                        (Inc "cloudwatch-logs")) as [rw Hrw].
        cbn [RecordOrigin_string]. rewrite Hrw. cbn. rewrite app_nil_r.
        split; [done|]. split; [done|]. split; [by apply Builder_Labels_run|].
        split; [|done]. intros d' cw' [= <-] Hjson'. congruence.
      * exists [cloudwatchBuilder (labels.Labels_ b) cw].
        erewrite serveRecord_cloudwatch by done. cbn.
        split; [done|]. split.
        { apply Forall_singleton. unfold cloudwatchBuilder. by rewrite !base_Set_. }
        split; [apply Builder_Labels_run; cbn; by apply lookup_app_l_Some|].
        split; [|done].
        intros d' cw' [= <-] Hjson'. rewrite Hjson in Hjson'. injection Hjson' as <-.
        split; [done|]. split; [apply lookup_snoc|].
        split; [apply originLabels_present|done].
    + exists []. erewrite serveRecord_direct by done. cbn. rewrite app_nil_r.
      split; [done|]. split; [done|]. split; [by apply Builder_Labels_run|].
      split; [by intros|done].
    + by apply decodeRecord_unknown in Hdec.
  - exists []. erewrite serveRecord_panic by done. cbn. rewrite app_nil_r.
    split; [done|]. split; [done|]. split; [by apply Builder_Labels_run|].
    split; [by intros|done].
Qed.

End claims.

(** * The claims on the examples *)

Import examples.

(** C2 on the stored-block codec, which has the two properties asked of
    the gzip writer. *)
Lemma decodeRecord_gzip_base64_round_trip_witness :
  decodeRecord
    (base64.EncodeToString (stored_gzip.compress (bytes_of_string "hello world")))
  = Done (bytes_of_string "hello world", OriginCloudwatchLogs, None).
Proof.
  apply (decodeRecord_gzip_base64_round_trip stored_gzip.compress).
  - apply stored_gzip_facts.compress_header.
  - intros b. eexists. split.
    + apply stored_gzip_facts.NewReader_compress.
    + apply stored_gzip_facts.drain_compress.
Defined.

(** C4 on a request that announces gzip and carries a plain body. *)
Lemma ServeHTTP_unreadable_plain_text_witness :
  readBatch (postMislabelled helloBatch) = inl "gzip: invalid header"%string
  ∧ ∃ σ', ServeHTTP noRules (postMislabelled helloBatch) initial = (Done (), σ')
      ∧ ResponseWriter.Status (w σ') = Some StatusBadRequest
      ∧ ResponseWriter.Header (w σ') !! "Content-Type"
        = Some "text/plain; charset=utf-8"%string
      ∧ ResponseWriter.Written (w σ')
        = "gzip: invalid header" +:+ String "010"%char EmptyString.
Proof.
  split; [vm_compute; reflexivity|].
  apply (ServeHTTP_unreadable_plain_text noRules (postMislabelled helloBatch)
           "gzip: invalid header" initial); vm_compute; reflexivity.
Defined.

(** C5 as it was stated fails: the control message with which CloudWatch
    checks the destination carries one log event, and that event is
    forwarded. *)
Lemma control_message_is_forwarded :
  json_Unmarshal (bytes_of_string (double.marshalCloudwatch controlMessage))
  = inr controlMessage
  ∧ CloudwatchLogsRecord.MessageType controlMessage = "CONTROL_MESSAGE"%string
  ∧ (handleCloudwatchLogsRecord noRules
       (bytes_of_string (double.marshalCloudwatch controlMessage)) [] initial).1
    = Done None
  ∧ Entry.Line <$>
      sent (handleCloudwatchLogsRecord noRules
              (bytes_of_string (double.marshalCloudwatch controlMessage)) [] initial).2
    = ["CWL CONTROL MESSAGE: Checking health of destination Firehose."%string].
Proof. repeat split; vm_compute; reflexivity. Qed.

(** The control message and its twin of type DATA_MESSAGE, under a rule
    that copies the message type to a label that survives: the same line,
    the same time stamp, and the label tells them apart. *)
Example control_message_and_data_twin :
  let run (r : CloudwatchLogsRecord.t) :=
    (λ e, (Entry.Line e, Entry.Timestamp e, map_to_list (Entry.Labels e)))
      <$> sent (handleCloudwatchLogsRecord twin_examples.typeRule
                  (bytes_of_string (double.marshalCloudwatch r)) [] initial).2 in
  run controlMessage
  = [("CWL CONTROL MESSAGE: Checking health of destination Firehose."%string,
      1700000000000000000%Z, [("msg_type", "CONTROL_MESSAGE")]%string)]
  ∧ run twin_examples.dataTwin
    = [("CWL CONTROL MESSAGE: Checking health of destination Firehose."%string,
        1700000000000000000%Z, [("msg_type", "DATA_MESSAGE")]%string)].
Proof. vm_compute. split; reflexivity. Qed.

(** C5 as amended, on the same control message, for a handler that can
    also decode the twin. *)
Lemma control_message_entries_witness :
  json_Unmarshal (Collaborators := twin_examples.env)
    (bytes_of_string (double.marshalCloudwatch controlMessage))
  = inr controlMessage
  ∧ CloudwatchLogsRecord.MessageType controlMessage = "CONTROL_MESSAGE"%string
  ∧ json_Unmarshal (Collaborators := twin_examples.env)
      (bytes_of_string (double.marshalCloudwatch twin_examples.dataTwin))
    = inr (withMessageType "DATA_MESSAGE" controlMessage)
  ∧ ∃ new σ',
      handleCloudwatchLogsRecord twin_examples.typeRule
        (bytes_of_string (double.marshalCloudwatch controlMessage)) [] initial
      = (Done None, σ')
      ∧ sent σ' = sent initial ++ new
      ∧ length new = length (CloudwatchLogsRecord.LogEvents controlMessage)
      ∧ (new = [] ↔ CloudwatchLogsRecord.LogEvents controlMessage = [])
      ∧ Entry.Line <$> new
        = CloudwatchLogEvent.Message <$> CloudwatchLogsRecord.LogEvents controlMessage
      ∧ new
        = cloudwatchEntries (H := twin_examples.env)
            (postProcessLabels twin_examples.typeRule
               (labels.Labels_
                  (labels.Set_ (originBuilder [] controlMessage)
                     "__aws_cw_msg_type" "CONTROL_MESSAGE")))
            (clock initial) (CloudwatchLogsRecord.LogEvents controlMessage)
      ∧ builders σ'
        = builders initial
          ++ [labels.Set_ (originBuilder [] controlMessage)
                "__aws_cw_msg_type" "CONTROL_MESSAGE"]
      ∧ ∀ data',
          json_Unmarshal (Collaborators := twin_examples.env) data' = inr (withMessageType "DATA_MESSAGE" controlMessage) →
          ∃ new' σ'',
            handleCloudwatchLogsRecord twin_examples.typeRule data' [] initial
            = (Done None, σ'')
            ∧ sent σ'' = sent initial ++ new'
            ∧ new'
              = cloudwatchEntries (H := twin_examples.env)
                  (postProcessLabels twin_examples.typeRule
                     (labels.Labels_
                        (labels.Set_ (originBuilder [] controlMessage)
                           "__aws_cw_msg_type" "DATA_MESSAGE")))
                  (clock initial) (CloudwatchLogsRecord.LogEvents controlMessage)
            ∧ Entry.Line <$> new' = Entry.Line <$> new
            ∧ Entry.Timestamp <$> new' = Entry.Timestamp <$> new
            ∧ builders σ''
              = builders initial
                ++ [labels.Set_ (originBuilder [] controlMessage)
                      "__aws_cw_msg_type" "DATA_MESSAGE"]
            ∧ errors σ'' = errors σ' ∧ recordsReceived σ'' = recordsReceived σ'
            ∧ logged σ'' = logged σ' ∧ w σ'' = w σ' ∧ clock σ'' = clock σ'.
Proof.
  split; [vm_compute; reflexivity|]. split; [reflexivity|].
  split; [vm_compute; reflexivity|].
  apply (control_message_entries twin_examples.typeRule
           (bytes_of_string (double.marshalCloudwatch controlMessage)) []
           controlMessage initial); vm_compute; reflexivity.
Defined.

(** C6 as it was stated fails: with no relabelling rules the entry of the
    record [hello world] has no label at all, although the request has a
    request id and a source ARN. *)
Lemma direct_put_internal_labels_dropped :
  Request.Header_Get (post helloBatch) "X-Amz-Firehose-Request-Id"
  = "a1af4300-6c09-4916-ba8f-12f336176246"%string
  ∧ base64.DecodeString (FirehoseRecord.Data helloRecord)
    = Some (bytes_of_string "hello world")
  ∧ (ServeHTTP noRules (post helloBatch) initial).1 = Done ()
  ∧ (λ e, (Entry.Line e, map_to_list (Entry.Labels e)))
      <$> sent (ServeHTTP noRules (post helloBatch) initial).2
    = [("hello world"%string, [])].
Proof. repeat split; vm_compute; reflexivity. Qed.

(** C6 as amended, on the same record. *)
Lemma direct_put_entry_witness :
  ∃ entry σ',
    serveRecord noRules helloBatch 0 helloRecord loopStart = (Done true, σ')
    ∧ sent σ' = sent loopStart ++ [entry]
    ∧ base64.DecodeString (FirehoseRecord.Data helloRecord)
      = Some (bytes_of_string "hello world")
    ∧ Entry.Line entry = string_of_bytes (bytes_of_string "hello world")
    ∧ Entry.Labels entry
      = postProcessLabels noRules (labels.Labels_ (commonBuilder (post helloBatch)))
    ∧ (∀ l, l ∈ labels.Labels_ (commonBuilder (post helloBatch)) →
            labels.Name l ∈ ["__aws_firehose_request_id"; "__aws_firehose_source_arn";
                             ReservedLabelTenantID]%string)
    ∧ (Request.Header_Get (post helloBatch) "X-Amz-Firehose-Request-Id" ≠ "" →
       ReservedLabelTenantID ≠ "__aws_firehose_request_id" →
       {| labels.Name := "__aws_firehose_request_id";
          labels.Value := Request.Header_Get (post helloBatch) "X-Amz-Firehose-Request-Id" |}
         ∈ labels.Labels_ (commonBuilder (post helloBatch)))
    ∧ (Request.Header_Get (post helloBatch) "X-Amz-Firehose-Source-Arn" ≠ "" →
       ReservedLabelTenantID ≠ "__aws_firehose_source_arn" →
       {| labels.Name := "__aws_firehose_source_arn";
          labels.Value := Request.Header_Get (post helloBatch) "X-Amz-Firehose-Source-Arn" |}
         ∈ labels.Labels_ (commonBuilder (post helloBatch)))
    ∧ (∀ n, String.prefix "__" n = true → n ≠ ReservedLabelTenantID →
            Entry.Labels entry !! n = None).
Proof.
  apply (direct_put_entry noRules (post helloBatch) helloBatch 0%nat helloRecord
           (bytes_of_string "hello world") loopStart); vm_compute; reflexivity.
Defined.

(** C7 on the label that the rules of the Go test copy from the request
    id. *)
Lemma postProcessLabels_sound_witness :
  {| labels.Name := "aws_request_id";
     labels.Value := "a1af4300-6c09-4916-ba8f-12f336176246" |}
    ∈ relabelled keepRules (labels.Labels_ (commonBuilder (post helloBatch)))
  ∧ (String.prefix "__" "aws_request_id" = true → "aws_request_id"%string = ReservedLabelTenantID)
  ∧ LabelName_IsValid "aws_request_id" = true
  ∧ LabelValue_IsValid "a1af4300-6c09-4916-ba8f-12f336176246" = true
  ∧ violates {| labels.Name := "aws_request_id";
                labels.Value := "a1af4300-6c09-4916-ba8f-12f336176246" |} = false.
Proof.
  apply (postProcessLabels_sound keepRules
           (labels.Labels_ (commonBuilder (post helloBatch)))).
  vm_compute; reflexivity.
Defined.

(** C8 on a gzipped batch without records. *)
Lemma ServeHTTP_empty_batch_witness :
  readBatch (postGzip emptyBatch) = inr emptyBatch
  ∧ ∃ σ', ServeHTTP noRules (postGzip emptyBatch) initial = (Done (), σ')
      ∧ sent σ' = sent initial
      ∧ ResponseWriter.Status (w σ') = Some StatusOK
      ∧ ResponseWriter.Written (w σ')
        = successResponse (FirehoseRequest.RequestID emptyBatch)
            (Time_Unix (time_Now (clock initial)))
      ∧ ResponseWriter.Header (w σ') !! "Content-Type" = Some "application/json"%string.
Proof.
  split; [vm_compute; reflexivity|].
  apply (ServeHTTP_empty_batch noRules (postGzip emptyBatch) emptyBatch initial);
    vm_compute; reflexivity.
Defined.

(** C9 on a data message with two log events. *)
Lemma handleCloudwatchLogsRecord_one_entry_per_event_witness :
  ∃ new σ',
    handleCloudwatchLogsRecord keepRules
      (bytes_of_string (double.marshalCloudwatch dataMessage)) [] initial
    = (Done None, σ')
    ∧ sent σ' = sent initial ++ new
    ∧ Entry.Line <$> new
      = CloudwatchLogEvent.Message <$> CloudwatchLogsRecord.LogEvents dataMessage.
Proof.
  apply (handleCloudwatchLogsRecord_one_entry_per_event keepRules
           (bytes_of_string (double.marshalCloudwatch dataMessage)) [] dataMessage initial).
  vm_compute; reflexivity.
Defined.

(** The heap after a CloudWatch record: the builder of the common labels,
    and the builder that the record allocated and filled. *)
Example serveRecord_cloudwatch_heap :
  builders (serveRecord keepRules cloudwatchBatch 0 (cloudwatchRecord dataMessage)
              loopStart).2
  = [commonBuilder (post helloBatch);
     cloudwatchBuilder (labels.Labels_ (commonBuilder (post helloBatch))) dataMessage]
  ∧ labels.add (cloudwatchBuilder (labels.Labels_ (commonBuilder (post helloBatch)))
                  dataMessage)
    = [ {| labels.Name := "__aws_owner"; labels.Value := "111122223333" |};
        {| labels.Name := "__aws_cw_log_group"; labels.Value := "app" |};
        {| labels.Name := "__aws_cw_log_stream"; labels.Value := "i-0123" |};
        {| labels.Name := "__aws_cw_matched_filters"; labels.Value := "all,errors" |};
        {| labels.Name := "__aws_cw_msg_type"; labels.Value := "DATA_MESSAGE" |} ].
Proof. vm_compute. split; reflexivity. Qed.

(** C10 on a CloudWatch record, which allocates a builder. *)
Lemma serveRecord_common_labels_frame_witness :
  decodeRecord (FirehoseRecord.Data (cloudwatchRecord dataMessage))
  = Done (bytes_of_string (double.marshalCloudwatch dataMessage), OriginCloudwatchLogs, None)
  ∧ json_Unmarshal (bytes_of_string (double.marshalCloudwatch dataMessage)) = inr dataMessage
  ∧ ∃ fresh,
      builders (serveRecord keepRules cloudwatchBatch 0 (cloudwatchRecord dataMessage)
                  loopStart).2
      = builders loopStart ++ fresh
      ∧ Forall (λ nb, labels.base nb = labels.Labels_ (commonBuilder (post helloBatch))) fresh
      ∧ Builder_Labels 0
          (serveRecord keepRules cloudwatchBatch 0 (cloudwatchRecord dataMessage) loopStart).2
        = (Done (labels.Labels_ (commonBuilder (post helloBatch))),
           (serveRecord keepRules cloudwatchBatch 0 (cloudwatchRecord dataMessage)
              loopStart).2)
      ∧ (∀ decodedRecord cwRecord,
           decodeRecord (FirehoseRecord.Data (cloudwatchRecord dataMessage))
           = Done (decodedRecord, OriginCloudwatchLogs, None) →
           json_Unmarshal decodedRecord = inr cwRecord →
           fresh = [cloudwatchBuilder (labels.Labels_ (commonBuilder (post helloBatch)))
                      cwRecord]
           ∧ builders (serveRecord keepRules cloudwatchBatch 0
                         (cloudwatchRecord dataMessage) loopStart).2
               !! length (builders loopStart)
             = Some (cloudwatchBuilder (labels.Labels_ (commonBuilder (post helloBatch)))
                       cwRecord)
           ∧ (∀ n v, (n, v) ∈ originLabels cwRecord → v ≠ "" →
                     {| labels.Name := n; labels.Value := v |}
                       ∈ labels.Labels_
                           (cloudwatchBuilder
                              (labels.Labels_ (commonBuilder (post helloBatch))) cwRecord))
           ∧ sent (serveRecord keepRules cloudwatchBatch 0 (cloudwatchRecord dataMessage)
                     loopStart).2
             = sent loopStart
               ++ cloudwatchEntries
                    (postProcessLabels keepRules
                       (labels.Labels_
                          (cloudwatchBuilder
                             (labels.Labels_ (commonBuilder (post helloBatch))) cwRecord)))
                    (clock loopStart) (CloudwatchLogsRecord.LogEvents cwRecord))
      ∧ (∀ decodedRecord,
           decodeRecord (FirehoseRecord.Data (cloudwatchRecord dataMessage))
           = Done (decodedRecord, OriginDirectPUT, None) →
           fresh = []).
Proof.
  split; [vm_compute; reflexivity|]. split; [vm_compute; reflexivity|].
  apply (serveRecord_common_labels_frame keepRules cloudwatchBatch 0%nat
           (cloudwatchRecord dataMessage) (commonBuilder (post helloBatch)) loopStart).
  reflexivity.
Defined.

(** * More properties of the handler *)

(** ** The decoder *)

Section decoder_extras.
Context `{Collaborators}.

Lemma isGzipHeader_panic decodedRec msg :
  isGzipHeader decodedRec = Panic msg →
  (length decodedRec < 3)%nat ∧ magicPrefix decodedRec = true
  ∧ msg = "index out of range"%string.
Proof.
  destruct decodedRec as [|a [|b [|c rest]]].
  - rewrite isGzipHeader_short by (cbn; lia). cbn. intros [= <-]. split; [lia|done].
  - rewrite isGzipHeader_short by (cbn; lia).
    destruct (magicPrefix [a]); [|done]. cbn. intros [= <-]. split; [lia|done].
  - rewrite isGzipHeader_short by (cbn; lia).
    destruct (magicPrefix [a; b]); [|done]. cbn. intros [= <-]. split; [lia|done].
  - by rewrite isGzipHeader_long.
Qed.

Lemma decodeRecord_panic_inv rec msg :
  decodeRecord rec = Panic msg →
  ∃ decodedRec, base64.DecodeString rec = Some decodedRec
                ∧ (length decodedRec < 3)%nat
                ∧ magicPrefix decodedRec = true.
Proof.
  intros Hp. unfold decodeRecord in Hp.
  destruct (base64.DecodeString rec) as [d|]; [|done]. exists d.
  destruct (isGzipHeader d) as [gz|m] eqn:Hgz.
  - cbn in Hp. destruct gz; cbn in Hp; [|done].
    destruct (gzip_NewReader d) as [?|r]; [done|].
    by destruct (io_Copy [] r) as [? []].
  - by apply isGzipHeader_panic in Hgz as (? & ? & _).
Qed.

(** X1.  The decoder panics on exactly the records that decode to fewer
    than three bytes which are a beginning of the magic bytes; on any other
    record it returns. *)
Theorem decodeRecord_panics_iff rec :
  (∃ msg, decodeRecord rec = Panic msg)
  ↔ ∃ decodedRec, base64.DecodeString rec = Some decodedRec
                  ∧ (length decodedRec < 3)%nat
                  ∧ magicPrefix decodedRec = true.
Proof.
  split.
  - intros [msg Hp]. by eapply decodeRecord_panic_inv.
  - intros (d & Hdec & Hlen & Hm). exists "index out of range"%string.
    by rewrite (decodeRecord_short rec d), Hm.
Qed.

(** X2.  Bytes that do not start like a gzip stream survive the trip
    through base64 and the decoder, as a direct-put record. *)
Theorem decodeRecord_direct_put_round_trip b :
  magicPrefix b = false →
  decodeRecord (base64.EncodeToString b) = Done (b, OriginDirectPUT, None).
Proof.
  intros Hm. apply decodeRecord_plain; [apply DecodeString_EncodeToString|done].
Qed.

(** X3.  What the decoder returns is consistent: an error comes with no
    bytes and never with the origin direct-put; the origin unknown is
    returned for the records that are not base64, and for them only; a
    result without error is never of unknown origin. *)
Theorem decodeRecord_result_shape rec decodedRecord recordType err :
  decodeRecord rec = Done (decodedRecord, recordType, err) →
  (recordType = OriginUnknown ↔ base64.DecodeString rec = None)
  ∧ match err with
    | Some _ => decodedRecord = [] ∧ recordType ≠ OriginDirectPUT
    | None => recordType ≠ OriginUnknown
    end.
Proof.
  unfold decodeRecord. destruct (base64.DecodeString rec) as [d|].
  - destruct (isGzipHeader d) as [[]|]; cbn; [| |done].
    + destruct (gzip_NewReader d) as [?|r]; [by intros [= <- <- <-]|].
      destruct (io_Copy [] r) as [? []]; by intros [= <- <- <-].
    + by intros [= <- <- <-].
  - by intros [= <- <- <-].
Qed.

(** X4.  The bytes of a record start with the magic bytes: the record is
    what the gzip reader makes of it.  When the stream cannot be opened or
    breaks while it is read, the result is an error with the origin
    cloudwatch-logs and without the bytes read so far. *)
Theorem decodeRecord_gzip_path rec decodedRec :
  base64.DecodeString rec = Some decodedRec →
  (3 ≤ length decodedRec)%nat →
  magicPrefix decodedRec = true →
  decodeRecord rec
  = match gzip_NewReader decodedRec with
    | inl err =>
        Done ([], OriginCloudwatchLogs,
              Some (Errorf "error creating gzip reader: " (LibraryError err)))
    | inr gzipReader =>
        match gzip_drain gzipReader with
        | (_, Some err) =>
            Done ([], OriginCloudwatchLogs,
                  Some (Errorf "error reading gzipped bytes: " (LibraryError err)))
        | (b, None) => Done (b, OriginCloudwatchLogs, None)
        end
    end.
Proof.
  intros Hdec Hlen Hm. unfold decodeRecord. rewrite Hdec.
  destruct decodedRec as [|x [|y [|z rest]]]; cbn in Hlen; try lia.
  rewrite isGzipHeader_long, Hm. cbn [negb mbind outcome_bind].
  destruct (gzip_NewReader _) as [e|r]; [done|].
  unfold io_Copy. by destruct (gzip_drain r) as [b [e|]].
Qed.

End decoder_extras.

(** ** Labels *)

Section label_extras.
Context `{Collaborators} (h : Handler).

(** X5.  When the labels that are filtered hold a name more than once, the
    last label of the name decides: if it obeys the conditions, the
    emitted set maps the name to its value. *)
Theorem postProcessLabels_last_wins lbs front lbl back :
  relabelled h lbs = front ++ lbl :: back →
  labels.Name lbl ∉ (labels.Name <$> back) →
  violates lbl = false →
  postProcessLabels h lbs !! labels.Name lbl = Some (labels.Value lbl).
Proof. apply postProcessLabels_keeps. Qed.

Lemma elem_of_add_Set_strong l b n v :
  l ∈ labels.add (labels.Set_ b n v) →
  (l = {| labels.Name := n; labels.Value := v |} ∧ v ≠ "") ∨ l ∈ labels.add b.
Proof.
  unfold labels.Set_, labels.Del. destruct (bool_decide (v = "")) eqn:Hv; cbn [labels.add].
  - rewrite list_elem_of_filter. tauto.
  - apply bool_decide_eq_false in Hv.
    intros [->|Hl]%elem_of_set_add; by auto.
Qed.

Lemma commonLabels_cases req l :
  l ∈ labels.Labels_ (commonBuilder req) →
  labels.Name l = "__aws_firehose_request_id"%string
  ∨ labels.Name l = "__aws_firehose_source_arn"%string
  ∨ (l = {| labels.Name := ReservedLabelTenantID;
            labels.Value := Request.Header_Get req "X-Scope-OrgID" |}
     ∧ Request.Header_Get req "X-Scope-OrgID" ≠ "").
Proof.
  rewrite elem_of_Labels_fresh by apply commonBuilder_base.
  unfold commonBuilder. intros Hl.
  assert (Htwo : ∀ a b, l ∈ labels.add
             (labels.Set_ (labels.Set_ (labels.NewBuilder []) "__aws_firehose_request_id" a)
                          "__aws_firehose_source_arn" b) →
           labels.Name l = "__aws_firehose_request_id"%string
           ∨ labels.Name l = "__aws_firehose_source_arn"%string).
  { intros a b [->|[->|Hnil]%elem_of_add_Set_]%elem_of_add_Set_; [by right|by left|].
    by apply elem_of_nil in Hnil. }
  destruct (negb (String.eqb (Request.Header_Get req "X-Scope-OrgID") "")) eqn:Ht.
  - apply elem_of_add_Set_strong in Hl as [[-> ?]|Hl]; [by right; right|].
    destruct (Htwo _ _ Hl); by auto.
  - destruct (Htwo _ _ Hl); by auto.
Qed.

Lemma commonLabels_tenant req :
  Request.Header_Get req "X-Scope-OrgID" ≠ "" →
  {| labels.Name := ReservedLabelTenantID;
     labels.Value := Request.Header_Get req "X-Scope-OrgID" |}
    ∈ labels.Labels_ (commonBuilder req).
Proof.
  intros Ht. rewrite elem_of_Labels_fresh by apply commonBuilder_base.
  unfold commonBuilder.
  rewrite (proj2 (negb_true_iff _)); [by apply add_Set_new|].
  by apply String.eqb_neq.
Qed.

(** X6.  A handler without relabelling rules gives a direct-put record
    the tenant label and no other: the label is there when the tenant
    header is not empty and name and value are valid, and the labels of the
    request id and of the source ARN are always dropped. *)
Theorem postProcessLabels_common_without_rules req :
  relabelRules h = [] →
  ReservedLabelTenantID ≠ "__aws_firehose_request_id"%string →
  ReservedLabelTenantID ≠ "__aws_firehose_source_arn"%string →
  postProcessLabels h (labels.Labels_ (commonBuilder req))
  = if negb (String.eqb (Request.Header_Get req "X-Scope-OrgID") "")
       && LabelName_IsValid ReservedLabelTenantID
       && LabelValue_IsValid (Request.Header_Get req "X-Scope-OrgID")
    then {[ ReservedLabelTenantID := Request.Header_Get req "X-Scope-OrgID" ]}
    else ∅.
Proof.
  intros Hrules Hid Harn.
  set (L := labels.Labels_ (commonBuilder req)).
  set (tenant := Request.Header_Get req "X-Scope-OrgID").
  assert (Hrel : relabelled h L = L) by (unfold relabelled; by rewrite Hrules).
  assert (Hsound : ∀ n v, postProcessLabels h L !! n = Some v →
            n = ReservedLabelTenantID ∧ v = tenant ∧ tenant ≠ ""
            ∧ LabelName_IsValid ReservedLabelTenantID = true
            ∧ LabelValue_IsValid tenant = true).
  { intros n v [Hin Hv]%postProcessLabels_lookup. rewrite Hrel in Hin.
    apply violates_false in Hv as (Hpre & Hname & Hval). cbn in Hpre, Hname, Hval.
    apply commonLabels_cases in Hin as [Hn|[Hn|[[= -> ->] Ht]]]; try cbn in Hn.
    - subst n. by destruct Hid; rewrite Hpre.
    - subst n. by destruct Harn; rewrite Hpre.
    - done. }
  destruct (negb (String.eqb tenant "") && LabelName_IsValid ReservedLabelTenantID
            && LabelValue_IsValid tenant) eqn:Hc.
  - apply andb_true_iff in Hc as [Hc Hval]. apply andb_true_iff in Hc as [Ht Hname].
    apply negb_true_iff, String.eqb_neq in Ht.
    apply map_eq. intros n.
    destruct (decide (n = ReservedLabelTenantID)) as [->|Hn].
    + rewrite lookup_singleton_eq.
      pose proof (commonLabels_tenant req Ht) as Hin. fold L tenant in Hin.
      apply list_elem_of_split_r in Hin as (front & back & Hsplit & Hlast).
      apply (postProcessLabels_keeps h L front
               {| labels.Name := ReservedLabelTenantID; labels.Value := tenant |} back).
      * by rewrite Hrel.
      * cbn. intros (l & Hl & Hlb)%list_elem_of_fmap.
        assert (Hin : l ∈ L) by (rewrite Hsplit; apply elem_of_app; right; by right).
        apply commonLabels_cases in Hin as [Hn|[Hn|[-> _]]]; [congruence..|done].
      * unfold violates. cbn. rewrite String.eqb_refl, Hname, Hval.
        by rewrite andb_false_r.
    + rewrite lookup_singleton_ne by done.
      destruct (postProcessLabels h L !! n) as [v|] eqn:Hv; [|done].
      by apply Hsound in Hv as [? _].
  - apply map_eq. intros n. rewrite lookup_empty.
    destruct (postProcessLabels h L !! n) as [v|] eqn:Hv; [|done].
    apply Hsound in Hv as (_ & _ & Ht & Hname & Hval).
    apply String.eqb_neq in Ht. by rewrite Ht, Hname, Hval in Hc.
Qed.

End label_extras.

(** ** The loop over the records *)

Section loop_extras.
Context `{Collaborators} (h : Handler).

Lemma plainRecord_decodeRecord rec decodedRecord :
  plainRecord rec decodedRecord →
  decodeRecord (FirehoseRecord.Data rec) = Done (decodedRecord, OriginDirectPUT, None).
Proof. intros [Hdec Hm]. by apply decodeRecord_plain. Qed.

(** Direct-put records at the head of a batch: each forwards its entry,
    and the loop goes on with the rest. *)
Lemma serveRecords_plain_prefix firehoseReq commonLabels b rest front : ∀ decoded σ,
  Forall2 plainRecord front decoded →
  builders σ !! commonLabels = Some b →
  serveRecords h firehoseReq commonLabels (front ++ rest) σ
  = serveRecords h firehoseReq commonLabels rest
      {| builders := builders σ;
         sent := sent σ
                 ++ directPutEntries (postProcessLabels h (labels.Labels_ b))
                      (clock σ) decoded;
         errors := errors σ;
         recordsReceived := Nat.iter (length decoded) (Inc "direct-put") (recordsReceived σ);
         logged := logged σ;
         w := w σ;
         clock := clock σ + length decoded |}.
Proof.
  induction front as [|rec front IH]; intros decoded σ Hplain Hp.
  - apply Forall2_nil_inv_l in Hplain as ->. cbn.
    destruct σ; cbn. by rewrite app_nil_r, Nat.add_0_r.
  - apply Forall2_cons_inv_l in Hplain as (d & decoded' & Hd & Hplain & ->).
    cbn [app]. rewrite serveRecords_cons.
    erewrite serveRecord_direct by (by try apply plainRecord_decodeRecord).
    rewrite (IH decoded') by done. cbn -[Nat.iter].
    by rewrite <- app_assoc, Nat.add_succ_r, Nat.iter_succ_r.
Qed.

Lemma lookup_iter_Inc l n (c : gmap string nat) :
  Nat.iter n (Inc l) c !! l
  = if n is O then c !! l else Some (default 0%nat (c !! l) + n)%nat.
Proof.
  induction n as [|n IH]; [done|]. rewrite Nat.iter_succ. unfold Inc at 1.
  rewrite lookup_insert_eq, IH. destruct n; [by rewrite Nat.add_1_r|].
  cbn. f_equal. lia.
Qed.

(** X7.  A batch of direct-put records is answered with 200 after one
    entry was forwarded for each record, in the order of the batch: the
    line is the decoded record, the time stamp is the clock reading at the
    moment of forwarding, and the labels are the same for all.  The
    records are counted as direct-put, no error is counted, and the time
    stamp of the response is read after the last entry. *)
Theorem ServeHTTP_direct_put_batch req firehoseReq decoded σ :
  readBatch req = inr firehoseReq →
  Forall2 plainRecord (FirehoseRequest.Records firehoseReq) decoded →
  w σ = ResponseWriter.fresh →
  ∃ σ', ServeHTTP h req σ = (Done (), σ')
    ∧ sent σ'
      = sent σ ++ directPutEntries
                    (postProcessLabels h (labels.Labels_ (commonBuilder req)))
                    (clock σ) decoded
    ∧ ResponseWriter.Status (w σ') = Some StatusOK
    ∧ ResponseWriter.Written (w σ')
      = successResponse (FirehoseRequest.RequestID firehoseReq)
          (Time_Unix (time_Now (clock σ + length decoded)))
    ∧ recordsReceived σ'
      = Nat.iter (length decoded) (Inc "direct-put") (recordsReceived σ)
    ∧ errors σ' = errors σ.
Proof.
  intros Hread Hplain Hfresh.
  rewrite (ServeHTTP_batch h req firehoseReq σ Hread).
  rewrite <- (app_nil_r (FirehoseRequest.Records firehoseReq)).
  erewrite serveRecords_plain_prefix; [|done|cbn; apply lookup_snoc].
  cbn [serveRecords]. rewrite sendAPIResponse_run by (cbn; by rewrite Hfresh).
  eexists. split; [done|]. cbn. rewrite Hfresh. by cbn.
Qed.

(** X8.  A 400 does not mean that nothing was forwarded.  When direct-put
    records come before a record that is not base64, their entries are at
    the sender when the batch is refused, whatever comes after the bad
    record. *)
Theorem ServeHTTP_forwards_before_refusing req firehoseReq front decoded rec back σ :
  readBatch req = inr firehoseReq →
  FirehoseRequest.Records firehoseReq = front ++ rec :: back →
  Forall2 plainRecord front decoded →
  base64.DecodeString (FirehoseRecord.Data rec) = None →
  w σ = ResponseWriter.fresh →
  ∃ σ', ServeHTTP h req σ = (Done (), σ')
    ∧ sent σ'
      = sent σ ++ directPutEntries
                    (postProcessLabels h (labels.Labels_ (commonBuilder req)))
                    (clock σ) decoded
    ∧ ResponseWriter.Status (w σ') = Some StatusBadRequest
    ∧ ResponseWriter.Written (w σ')
      = errorResponse (FirehoseRequest.RequestID firehoseReq)
          (Time_Unix (time_Now (clock σ + length decoded))) "failed to decode record"
    ∧ errors σ' = Inc "decode" (errors σ).
Proof.
  intros Hread Hrecords Hplain Hdec Hfresh.
  rewrite (ServeHTTP_batch h req firehoseReq σ Hread), Hrecords.
  erewrite serveRecords_plain_prefix; [|done|cbn; apply lookup_snoc].
  rewrite serveRecords_cons.
  rewrite (serveRecord_decode_error h _ _ _ _ [] OriginUnknown
             (Errorf "error base64-decoding record: " CorruptInputError))
    by (first [by apply decodeRecord_corrupt | cbn; by rewrite Hfresh]).
  eexists. split; [done|]. cbn. rewrite Hfresh. by cbn.
Qed.

(** X9.  The records after a record that is not base64 have no effect at
    all: the batch ends as if the bad record were its last, whatever the
    records before it do. *)
Theorem serveRecords_ignores_records_after_corrupt firehoseReq commonLabels
    front rec back σ :
  base64.DecodeString (FirehoseRecord.Data rec) = None →
  serveRecords h firehoseReq commonLabels (front ++ rec :: back) σ
  = serveRecords h firehoseReq commonLabels (front ++ [rec]) σ.
Proof.
  intros Hdec. apply serveRecords_abort. intros σ0.
  by rewrite serveRecord_corrupt_stops.
Qed.

End loop_extras.

(** ** Counters, panics and the request as a whole *)

Section request_extras.
Context `{Collaborators} (h : Handler).

(** One record and the error counter: the loop goes on without a count,
    or stops after counting one error of the stage of the failure. *)
Lemma serveRecord_errors firehoseReq commonLabels rec b σ :
  builders σ !! commonLabels = Some b →
  ResponseWriter.Status (w σ) = None →
  match serveRecord h firehoseReq commonLabels rec σ with
  | (Done true, σ') =>
      w σ' = w σ ∧ builders σ' !! commonLabels = Some b ∧ errors σ' = errors σ
  | (Done false, σ') =>
      ResponseWriter.Status (w σ') = Some StatusBadRequest
      ∧ ∃ stage, stage ∈ ["decode"; "handle_cw"]%string
                 ∧ errors σ' = Inc stage (errors σ)
  | (Panic msg, σ') => decodeRecord (FirehoseRecord.Data rec) = Panic msg
  end.
Proof.
  intros Hp Hfresh.
  destruct (decodeRecord (FirehoseRecord.Data rec)) as [[[d o] [e|]]|msg] eqn:Hdec.
  - erewrite serveRecord_decode_error by done. cbn. split; [done|].
    exists "decode"%string. split; [by left|done].
  - destruct o.
    + destruct (json_Unmarshal d) as [e|cw] eqn:Hjson.
      * erewrite serveRecord_cloudwatch_error by done. cbn. split; [done|].
        exists "handle_cw"%string. split; [by right; left|done].
      * erewrite serveRecord_cloudwatch by done. cbn. split; [done|].
        split; [by apply lookup_app_l_Some|done].
    + erewrite serveRecord_direct by done. by cbn.
    + by apply decodeRecord_unknown in Hdec.
  - by erewrite serveRecord_panic.
Qed.

Lemma serveRecords_errors firehoseReq commonLabels b records : ∀ σ,
  builders σ !! commonLabels = Some b →
  ResponseWriter.Status (w σ) = None →
  match serveRecords h firehoseReq commonLabels records σ with
  | (Done _, σ') =>
      (ResponseWriter.Status (w σ') = Some StatusOK ∧ errors σ' = errors σ)
      ∨ (ResponseWriter.Status (w σ') = Some StatusBadRequest
         ∧ ∃ stage, stage ∈ ["decode"; "handle_cw"]%string
                    ∧ errors σ' = Inc stage (errors σ))
  | (Panic msg, σ') =>
      ∃ rec, rec ∈ records ∧ decodeRecord (FirehoseRecord.Data rec) = Panic msg
  end.
Proof.
  induction records as [|rec records IH]; intros σ Hp Hfresh.
  - cbn [serveRecords]. rewrite sendAPIResponse_run by done. cbn. by left.
  - rewrite serveRecords_cons.
    pose proof (serveRecord_errors firehoseReq commonLabels rec b σ Hp Hfresh) as Hrec.
    destruct (serveRecord h firehoseReq commonLabels rec σ) as [[[]|msg] σ1].
    + destruct Hrec as (Hw & Hp1 & Herr).
      specialize (IH σ1 Hp1 ltac:(by rewrite Hw)).
      destruct (serveRecords h firehoseReq commonLabels records σ1) as [[[]|msg] σ2].
      * by rewrite <- Herr.
      * destruct IH as (r & Hr & Hpanic). exists r. split; [by right|done].
    + by right.
    + exists rec. split; [by left|done].
Qed.

(** The world after a request whose batch envelope cannot be read *)
Lemma ServeHTTP_unreadable_world req err σ :
  readBatch req = inl err →
  ResponseWriter.Status (w σ) = None →
  ∃ msg,
    ServeHTTP h req σ
    = (Done (),
       {| builders := builders σ; sent := sent σ;
          errors :=
            Inc (if String.eqb (Request.Header_Get req "Content-Encoding") "gzip"
                 then match gzip_NewReader (Request.Body req) with
                      | inl _ => "pre_read"
                      | inr _ => "read_or_format"
                      end
                 else "read_or_format")%string (errors σ);
          recordsReceived := recordsReceived σ;
          logged := logged σ ++ [("info", "handling request"); ("error", msg)]%string;
          w := plainResponse err StatusBadRequest (w σ);
          clock := clock σ |}).
Proof.
  unfold readBatch, ServeHTTP. intros Hread Hfresh.
  erewrite bind_run by reflexivity.
  assert (Hbatch : ∀ r, json_Decode r = inl err →
    decodeBatch h r req (set_logged (λ ls, ls ++ [("info", "handling request")]%string) σ)
    = (Done (),
       {| builders := builders σ; sent := sent σ;
          errors := Inc "read_or_format" (errors σ);
          recordsReceived := recordsReceived σ;
          logged := logged σ ++ [("info", "handling request");
                                 ("error", "failed to unmarshall request")]%string;
          w := plainResponse err StatusBadRequest (w σ);
          clock := clock σ |})).
  { intros r Hr. unfold decodeBatch. rewrite Hr.
    do 2 (erewrite bind_run by reflexivity).
    rewrite http_Error_run by (by destruct σ).
    destruct σ; cbn. by rewrite <- app_assoc. }
  destruct (String.eqb _ "gzip").
  - destruct (gzip_NewReader (Request.Body req)) as [e|r].
    + injection Hread as ->. exists "failed to create gzip reader"%string.
      do 2 (erewrite bind_run by reflexivity).
      rewrite http_Error_run by (by destruct σ).
      destruct σ; cbn. by rewrite <- app_assoc.
    + eexists. by apply Hbatch.
  - eexists. by apply Hbatch.
Qed.

(** X10.  The envelope of the batch cannot be read: one error is counted,
    under [pre_read] when the gzip reader could not be opened and under
    [read_or_format] when the JSON decoder failed; no record is counted,
    nothing is forwarded, no label builder is allocated and the clock is
    not read. *)
Theorem ServeHTTP_unreadable_stage req err σ :
  readBatch req = inl err →
  w σ = ResponseWriter.fresh →
  ∃ σ', ServeHTTP h req σ = (Done (), σ')
    ∧ errors σ'
      = Inc (if String.eqb (Request.Header_Get req "Content-Encoding") "gzip"
             then match gzip_NewReader (Request.Body req) with
                  | inl _ => "pre_read"
                  | inr _ => "read_or_format"
                  end
             else "read_or_format")%string (errors σ)
    ∧ recordsReceived σ' = recordsReceived σ
    ∧ sent σ' = sent σ
    ∧ builders σ' = builders σ
    ∧ clock σ' = clock σ.
Proof.
  intros Hread Hfresh.
  destruct (ServeHTTP_unreadable_world req err σ Hread) as [msg Hrun].
  { by rewrite Hfresh. }
  eexists. split; [exact Hrun|]. by cbn.
Qed.

(** X11.  A request that is answered is answered with 200 or with 400.
    With 200 no error was counted; with 400 exactly one error counter went
    up by one, that of the stage at which the request failed. *)
Theorem ServeHTTP_status_and_error_counter req σ σ' :
  w σ = ResponseWriter.fresh →
  ServeHTTP h req σ = (Done (), σ') →
  (ResponseWriter.Status (w σ') = Some StatusOK ∧ errors σ' = errors σ)
  ∨ (ResponseWriter.Status (w σ') = Some StatusBadRequest
     ∧ ∃ stage, stage ∈ ["pre_read"; "read_or_format"; "decode"; "handle_cw"]%string
                ∧ errors σ' = Inc stage (errors σ)).
Proof.
  intros Hfresh Hrun.
  destruct (readBatch req) as [err|firehoseReq] eqn:Hread.
  - destruct (ServeHTTP_unreadable_world req err σ Hread) as [msg Hrun'].
    { by rewrite Hfresh. }
    rewrite Hrun in Hrun'. injection Hrun' as ->.
    right. split; [done|].
    eexists. split; [|done].
    destruct (String.eqb _ _); [destruct (gzip_NewReader _)|]; by repeat constructor.
  - rewrite (ServeHTTP_batch h req firehoseReq σ Hread) in Hrun.
    match type of Hrun with
    | serveRecords _ _ _ _ ?s = _ =>
        assert (Hfresh' : ResponseWriter.Status (w s) = None) by (cbn; by rewrite Hfresh);
        pose proof (serveRecords_errors firehoseReq _ (commonBuilder req)
                      (FirehoseRequest.Records firehoseReq) s
                      (lookup_snoc (builders σ) (commonBuilder req)) Hfresh') as Hloop
    end.
    rewrite Hrun in Hloop. cbn in Hloop.
    destruct Hloop as [?|(Hst & stage & Hstage & Herr)]; [by left|].
    right. split; [done|]. exists stage. split; [|done].
    apply elem_of_cons in Hstage as [->|Hstage]; [by repeat constructor|].
    apply list_elem_of_singleton in Hstage as ->. by repeat constructor.
Qed.

(** X12.  The handler panics only in the decoder: a request whose batch
    can be read and has no record that decodes to fewer than three bytes
    beginning like the magic bytes is always answered. *)
Theorem ServeHTTP_answers_without_short_magic req firehoseReq σ :
  readBatch req = inr firehoseReq →
  w σ = ResponseWriter.fresh →
  (∀ rec decodedRec,
     rec ∈ FirehoseRequest.Records firehoseReq →
     base64.DecodeString (FirehoseRecord.Data rec) = Some decodedRec →
     magicPrefix decodedRec = true → (3 ≤ length decodedRec)%nat) →
  ∃ σ', ServeHTTP h req σ = (Done (), σ').
Proof.
  intros Hread Hfresh Hlong.
  rewrite (ServeHTTP_batch h req firehoseReq σ Hread).
  match goal with
  | |- context [serveRecords _ _ _ _ ?s] =>
      assert (Hfresh' : ResponseWriter.Status (w s) = None) by (cbn; by rewrite Hfresh);
      pose proof (serveRecords_errors firehoseReq _ (commonBuilder req)
                    (FirehoseRequest.Records firehoseReq) s
                    (lookup_snoc (builders σ) (commonBuilder req)) Hfresh') as Hloop
  end.
  destruct (serveRecords _ _ _ _ _) as [[[]|msg] σ']; [by eexists|].
  destruct Hloop as (rec & Hrec & Hpanic).
  apply decodeRecord_panic_inv in Hpanic as (d & Hdec & Hlen & Hm).
  specialize (Hlong rec d Hrec Hdec Hm). lia.
Qed.

End request_extras.

(** ** CloudWatch records *)

Section cloudwatch_extras.
Context `{Collaborators} (h : Handler).

Lemma lookup_cloudwatchEntries lbs events : ∀ tick i event,
  events !! i = Some event →
  cloudwatchEntries lbs tick events !! i
  = Some {| Entry.Labels := lbs;
            Entry.Timestamp := time_Now (tick + i);
            Entry.Line := CloudwatchLogEvent.Message event |}.
Proof.
  induction events as [|e events IH]; intros tick i event Hi; [done|].
  destruct i as [|i]; cbn [cloudwatchEntries].
  - injection Hi as ->. by rewrite Nat.add_0_r.
  - rewrite lookup_cons_ne_0 by done. cbn [pred].
    rewrite (IH (S tick) i event Hi). by rewrite Nat.add_succ_r.
Qed.

(** X13.  The entry of the [i]-th log event of a CloudWatch record: its
    time stamp is the clock reading when it is forwarded, not the time
    stamp of the event; its labels are the post-processing of the labels
    of the record, the same for all events; the id of the event is not
    used. *)
Theorem handleCloudwatchLogsRecord_entry data commonLabels cwRecord σ i event :
  json_Unmarshal data = inr cwRecord →
  CloudwatchLogsRecord.LogEvents cwRecord !! i = Some event →
  sent (handleCloudwatchLogsRecord h data commonLabels σ).2 !! (length (sent σ) + i)%nat
  = Some {| Entry.Labels :=
              postProcessLabels h
                (labels.Labels_ (cloudwatchBuilder commonLabels cwRecord));
            Entry.Timestamp := time_Now (clock σ + i);
            Entry.Line := CloudwatchLogEvent.Message event |}.
Proof.
  intros Hjson Hi. rewrite (handleCloudwatchLogsRecord_parsed h _ _ _ _ Hjson). cbn.
  rewrite lookup_app_r by lia.
  replace (length (sent σ) + i - length (sent σ))%nat with i by lia.
  by apply lookup_cloudwatchEntries.
Qed.

(** X14.  A record that is gzip but not the JSON of a CloudWatch envelope
    is counted as a received cloudwatch-logs record and as an error of the
    stage [handle_cw]; the batch is refused with 400, nothing of the
    record is forwarded and no label builder stays behind. *)
Theorem serveRecord_cloudwatch_not_json firehoseReq commonLabels rec decodedRecord b err σ :
  decodeRecord (FirehoseRecord.Data rec) = Done (decodedRecord, OriginCloudwatchLogs, None) →
  json_Unmarshal decodedRecord = inl err →
  builders σ !! commonLabels = Some b →
  w σ = ResponseWriter.fresh →
  ∃ σ', serveRecord h firehoseReq commonLabels rec σ = (Done false, σ')
    ∧ recordsReceived σ' = Inc "cloudwatch-logs" (recordsReceived σ)
    ∧ errors σ' = Inc "handle_cw" (errors σ)
    ∧ sent σ' = sent σ
    ∧ builders σ' = builders σ
    ∧ ResponseWriter.Status (w σ') = Some StatusBadRequest
    ∧ ResponseWriter.Written (w σ')
      = errorResponse (FirehoseRequest.RequestID firehoseReq)
          (Time_Unix (time_Now (clock σ))) "failed to handle cloudwatch record".
Proof.
  intros Hdec Hjson Hp Hfresh.
  erewrite serveRecord_cloudwatch_error by (first [done | by rewrite Hfresh]).
  eexists. split; [done|]. cbn. rewrite Hfresh. by cbn.
Qed.

End cloudwatch_extras.

(** ** The labels of a CloudWatch record *)

Section cloudwatch_labels.
Import labels.

Lemma elem_of_Labels_ l b :
  l ∈ Labels_ b
  ↔ (l ∈ base b ∧ (Name l ∉ del b) ∧ (Name l ∉ (Name <$> add b))) ∨ l ∈ add b.
Proof.
  unfold Labels_.
  destruct (del b) as [|d ds] eqn:Hdel; destruct (add b) as [|a adds] eqn:Hadd;
    rewrite ?elem_of_sort, ?elem_of_app, ?list_elem_of_filter, ?andb_True,
      ?bool_decide_spec; cbn [fmap list_fmap]; rewrite ?elem_of_nil; tauto.
Qed.

Lemma del_Set_ b n v d : d ∈ del (Set_ b n v) → d ∈ del b ∨ d = n.
Proof.
  unfold Set_, Del. destruct (bool_decide (v = "")); cbn [del]; [|by left].
  rewrite elem_of_app, list_elem_of_singleton. tauto.
Qed.

Lemma del_NewBuilder lbs d :
  d ∈ del (NewBuilder lbs) → ∃ l, l ∈ lbs ∧ Name l = d ∧ Value l = "".
Proof.
  cbn [NewBuilder del]. intros (l & -> & Hl)%list_elem_of_fmap.
  apply list_elem_of_filter in Hl as [Hv Hl]. apply bool_decide_unpack in Hv.
  by exists l.
Qed.

Lemma names_add_Set_ b n v m :
  m ∈ (Name <$> add (Set_ b n v)) → m = n ∨ m ∈ (Name <$> add b).
Proof.
  intros (l & -> & Hl)%list_elem_of_fmap.
  apply elem_of_add_Set_ in Hl as [?|Hl]; [by left|].
  right. apply list_elem_of_fmap. by exists l.
Qed.

Context `{Collaborators}.

(** X15.  The labels of a CloudWatch record, before the post-processing:
    the owner, the log group, the log stream, the matched filters and the
    message type of the envelope, each under its name when it is not
    empty, and beside them every common label of another name (a label
    with an empty value counts as absent). *)
Theorem cloudwatchLabels_content commonLabels cwRecord :
  (∀ l, l ∈ commonLabels →
        Name l ∉ cloudwatchLabelNames →
        (∀ l', l' ∈ commonLabels → Name l' = Name l → Value l' ≠ "") →
        l ∈ Labels_ (cloudwatchBuilder commonLabels cwRecord))
  ∧ (∀ n v,
       (n, v) ∈ [("__aws_owner", CloudwatchLogsRecord.Owner cwRecord);
                 ("__aws_cw_log_group", CloudwatchLogsRecord.LogGroup cwRecord);
                 ("__aws_cw_log_stream", CloudwatchLogsRecord.LogStream cwRecord);
                 ("__aws_cw_matched_filters",
                  String.concat "," (CloudwatchLogsRecord.SubscriptionFilters cwRecord));
                 ("__aws_cw_msg_type", CloudwatchLogsRecord.MessageType cwRecord)]%string →
       v ≠ "" →
       {| Name := n; Value := v |} ∈ Labels_ (cloudwatchBuilder commonLabels cwRecord)).
Proof.
  split.
  - intros l Hl Hname Hvalue. apply elem_of_Labels_. left.
    unfold cloudwatchBuilder. rewrite !base_Set_. split; [done|].
    unfold cloudwatchLabelNames in Hname.
    repeat (apply not_elem_of_cons in Hname as [? Hname]).
    split.
    + intros Hd.
      repeat (apply del_Set_ in Hd as [Hd|Hd]; [|congruence]).
      apply del_NewBuilder in Hd as (l' & Hl' & Hn & Hv). by eapply Hvalue.
    + intros Hm.
      repeat (apply names_add_Set_ in Hm as [Hm|Hm]; [congruence|]).
      cbn in Hm. by apply elem_of_nil in Hm.
  - intros n v Hnv Hv. apply elem_of_Labels_. right. unfold cloudwatchBuilder.
    repeat (apply elem_of_cons in Hnv as [[= -> ->]|Hnv];
            [repeat (first [by apply add_Set_new | apply add_Set_other; [|by cbn]])|]).
    by apply elem_of_nil in Hnv.
Qed.

End cloudwatch_labels.

(** ** [HTTPPrefix] *)

Lemma append_cons c s t : String c s +:+ t = String c (s +:+ t).
Proof. reflexivity. Qed.

Lemma get_last_append s c :
  String.get (String.length (s +:+ String c "") - 1) (s +:+ String c "") = Some c.
Proof.
  induction s as [|d s IH]; [done|].
  rewrite append_cons. cbn [String.length]. rewrite Nat.sub_succ, Nat.sub_0_r.
  destruct (String.length _) as [|n] eqn:Hlen; [by destruct s|].
  cbn [String.get]. by rewrite <- IH, Nat.sub_succ, Nat.sub_0_r.
Qed.

Lemma append_inj_r s t c : s +:+ String c "" = t +:+ String c "" → s = t.
Proof.
  revert t. induction s as [|d s IH]; intros [|e t]; rewrite ?append_cons; intros Heq.
  - done.
  - injection Heq as -> Heq. by destruct t.
  - injection Heq as -> Heq. by destruct s.
  - injection Heq as -> Heq. f_equal. by apply IH.
Qed.

(** X16.  The prefix of a component starts with [/component/] and ends in
    a slash, as its documentation says, and different components have
    different prefixes. *)
Theorem HTTPPrefix_shape componentID :
  String.prefix "/component/" (HTTPPrefix componentID) = true
  ∧ String.get (String.length (HTTPPrefix componentID) - 1) (HTTPPrefix componentID)
    = Some "/"%char
  ∧ ∀ other, HTTPPrefix other = HTTPPrefix componentID → other = componentID.
Proof.
  unfold HTTPPrefix. split; [by destruct componentID|]. split.
  - change ("/component/" +:+ componentID +:+ "/")
      with (("/component/" +:+ componentID) +:+ "/").
    apply get_last_append.
  - intros other Heq. apply String.app_inj in Heq. by apply append_inj_r in Heq.
Qed.

(** * The further properties on the examples *)

(** X2 on the record [hello world]. *)
Lemma decodeRecord_direct_put_round_trip_witness :
  magicPrefix (bytes_of_string "hello world") = false
  ∧ decodeRecord (H := examples.env) (base64.EncodeToString (bytes_of_string "hello world"))
    = Done (bytes_of_string "hello world", OriginDirectPUT, None).
Proof.
  split; [reflexivity|].
  apply (decodeRecord_direct_put_round_trip (bytes_of_string "hello world")).
  reflexivity.
Defined.

(** X3 on a record that is not base64. *)
Lemma decodeRecord_result_shape_witness :
  (OriginUnknown = OriginUnknown ↔ base64.DecodeString "!!!!" = None)
  ∧ ([] = @nil byte ∧ OriginUnknown ≠ OriginDirectPUT).
Proof.
  apply (decodeRecord_result_shape (H := examples.env) "!!!!" [] OriginUnknown
           (Some (Errorf "error base64-decoding record: " CorruptInputError))).
  reflexivity.
Defined.

(** X4 on a gzip stream that is cut in its first block. *)
Lemma decodeRecord_gzip_path_witness :
  decodeRecord (H := examples.env) (FirehoseRecord.Data more_examples.truncatedRecord)
  = Done ([], OriginCloudwatchLogs,
          Some (Errorf "error reading gzipped bytes: "
                  (LibraryError "flate: corrupt input"))).
Proof.
  rewrite (decodeRecord_gzip_path (H := examples.env)
             (FirehoseRecord.Data more_examples.truncatedRecord)
             (take 12 (stored_gzip.compress (bytes_of_string "hello world")))).
  - vm_compute. reflexivity.
  - vm_compute. reflexivity.
  - vm_compute. lia.
  - vm_compute. reflexivity.
Defined.

(** X5 on a name that comes twice. *)
Lemma postProcessLabels_last_wins_witness :
  postProcessLabels examples.noRules
    [ {| labels.Name := "job"; labels.Value := "first" |};
      {| labels.Name := "job"; labels.Value := "second" |};
      {| labels.Name := "env"; labels.Value := "prod" |} ] !! "job"
  = Some "second"%string.
Proof.
  apply (postProcessLabels_last_wins examples.noRules _
           [ {| labels.Name := "job"; labels.Value := "first" |} ]
           {| labels.Name := "job"; labels.Value := "second" |}
           [ {| labels.Name := "env"; labels.Value := "prod" |} ]).
  - reflexivity.
  - cbn. intros [[=]|[]%elem_of_nil]%elem_of_cons.
  - vm_compute. reflexivity.
Defined.

(** X6 on a request with a tenant header. *)
Lemma postProcessLabels_common_without_rules_witness :
  postProcessLabels examples.noRules
    (labels.Labels_ (commonBuilder (more_examples.tenantPost examples.helloBatch)))
  = if negb (String.eqb (Request.Header_Get (more_examples.tenantPost examples.helloBatch)
                           "X-Scope-OrgID") "")
       && LabelName_IsValid ReservedLabelTenantID
       && LabelValue_IsValid
            (Request.Header_Get (more_examples.tenantPost examples.helloBatch) "X-Scope-OrgID")
    then {[ ReservedLabelTenantID :=
              Request.Header_Get (more_examples.tenantPost examples.helloBatch)
                "X-Scope-OrgID" ]}
    else ∅.
Proof.
  apply (postProcessLabels_common_without_rules examples.noRules
           (more_examples.tenantPost examples.helloBatch)).
  - reflexivity.
  - vm_compute. discriminate.
  - vm_compute. discriminate.
Defined.

(** X7 on the batch of the record [hello world]. *)
Lemma ServeHTTP_direct_put_batch_witness :
  ∃ σ', ServeHTTP examples.keepRules (examples.post examples.helloBatch) initial
        = (Done (), σ')
    ∧ sent σ'
      = sent initial
        ++ directPutEntries
             (postProcessLabels examples.keepRules
                (labels.Labels_ (commonBuilder (examples.post examples.helloBatch))))
             (clock initial) [bytes_of_string "hello world"]
    ∧ ResponseWriter.Status (w σ') = Some StatusOK
    ∧ ResponseWriter.Written (w σ')
      = successResponse (FirehoseRequest.RequestID examples.helloBatch)
          (Time_Unix (time_Now (clock initial + length [bytes_of_string "hello world"])))
    ∧ recordsReceived σ'
      = Nat.iter (length [bytes_of_string "hello world"]) (Inc "direct-put")
          (recordsReceived initial)
    ∧ errors σ' = errors initial.
Proof.
  apply (ServeHTTP_direct_put_batch examples.keepRules
           (examples.post examples.helloBatch) examples.helloBatch
           [bytes_of_string "hello world"] initial).
  - vm_compute. reflexivity.
  - repeat constructor; vm_compute; reflexivity.
  - reflexivity.
Defined.

(** X8 on the batch whose second record is not base64. *)
Lemma ServeHTTP_forwards_before_refusing_witness :
  ∃ σ', ServeHTTP examples.keepRules (examples.post examples.threeBatch) initial
        = (Done (), σ')
    ∧ sent σ'
      = sent initial
        ++ directPutEntries
             (postProcessLabels examples.keepRules
                (labels.Labels_ (commonBuilder (examples.post examples.threeBatch))))
             (clock initial) [bytes_of_string "hello world"]
    ∧ ResponseWriter.Status (w σ') = Some StatusBadRequest
    ∧ ResponseWriter.Written (w σ')
      = errorResponse (FirehoseRequest.RequestID examples.threeBatch)
          (Time_Unix (time_Now (clock initial + length [bytes_of_string "hello world"])))
          "failed to decode record"
    ∧ errors σ' = Inc "decode" (errors initial).
Proof.
  apply (ServeHTTP_forwards_before_refusing examples.keepRules
           (examples.post examples.threeBatch) examples.threeBatch
           [examples.helloRecord] [bytes_of_string "hello world"]
           examples.corruptRecord [examples.helloRecord] initial).
  - vm_compute. reflexivity.
  - reflexivity.
  - repeat constructor; vm_compute; reflexivity.
  - vm_compute. reflexivity.
  - reflexivity.
Defined.

(** X9 on the same batch. *)
Lemma serveRecords_ignores_records_after_corrupt_witness :
  serveRecords examples.keepRules examples.threeBatch 0
    ([examples.helloRecord] ++ examples.corruptRecord :: [examples.helloRecord])
    examples.loopStart
  = serveRecords examples.keepRules examples.threeBatch 0
      ([examples.helloRecord] ++ [examples.corruptRecord]) examples.loopStart.
Proof.
  apply (serveRecords_ignores_records_after_corrupt examples.keepRules).
  vm_compute. reflexivity.
Defined.

(** X10 on a request that announces gzip and carries a plain body. *)
Lemma ServeHTTP_unreadable_stage_witness :
  ∃ σ', ServeHTTP examples.noRules (examples.postMislabelled examples.helloBatch) initial
        = (Done (), σ')
    ∧ errors σ'
      = Inc (if String.eqb (Request.Header_Get (examples.postMislabelled examples.helloBatch)
                              "Content-Encoding") "gzip"
             then match gzip_NewReader
                          (Request.Body (examples.postMislabelled examples.helloBatch)) with
                  | inl _ => "pre_read"
                  | inr _ => "read_or_format"
                  end
             else "read_or_format")%string (errors initial)
    ∧ recordsReceived σ' = recordsReceived initial
    ∧ sent σ' = sent initial
    ∧ builders σ' = builders initial
    ∧ clock σ' = clock initial.
Proof.
  apply (ServeHTTP_unreadable_stage examples.noRules
           (examples.postMislabelled examples.helloBatch) "gzip: invalid header" initial).
  - vm_compute. reflexivity.
  - reflexivity.
Defined.

(** X11 on the gzipped batch whose second record is not base64. *)
Lemma ServeHTTP_status_and_error_counter_witness :
  let σ' := (ServeHTTP examples.keepRules (examples.postGzip examples.threeBatch) initial).2 in
  (ResponseWriter.Status (w σ') = Some StatusOK ∧ errors σ' = errors initial)
  ∨ (ResponseWriter.Status (w σ') = Some StatusBadRequest
     ∧ ∃ stage, stage ∈ ["pre_read"; "read_or_format"; "decode"; "handle_cw"]%string
                ∧ errors σ' = Inc stage (errors initial)).
Proof.
  apply (ServeHTTP_status_and_error_counter examples.keepRules
           (examples.postGzip examples.threeBatch) initial).
  - reflexivity.
  - vm_compute. reflexivity.
Defined.

(** X12 on the batch with a CloudWatch record between two direct-put
    records. *)
Lemma ServeHTTP_answers_without_short_magic_witness :
  ∃ σ', ServeHTTP examples.keepRules (examples.post examples.cloudwatchBatch) initial
        = (Done (), σ').
Proof.
  apply (ServeHTTP_answers_without_short_magic examples.keepRules
           (examples.post examples.cloudwatchBatch) examples.cloudwatchBatch initial).
  - vm_compute. reflexivity.
  - reflexivity.
  - intros rec decodedRec Hin Hdec Hm.
    cbn in Hin.
    repeat (apply elem_of_cons in Hin as [->|Hin]);
      [| |
       |by apply elem_of_nil in Hin];
      vm_compute in Hdec; injection Hdec as <-;
      first [discriminate Hm | (vm_compute; lia)].
Defined.

(** X13 on the second event of a data message. *)
Lemma handleCloudwatchLogsRecord_entry_witness :
  sent (handleCloudwatchLogsRecord examples.keepRules
          (bytes_of_string (double.marshalCloudwatch examples.dataMessage)) [] initial).2
    !! (length (sent initial) + 1)%nat
  = Some {| Entry.Labels :=
              postProcessLabels examples.keepRules
                (labels.Labels_ (cloudwatchBuilder [] examples.dataMessage));
            Entry.Timestamp := time_Now (clock initial + 1);
            Entry.Line := "second line" |}.
Proof.
  apply (handleCloudwatchLogsRecord_entry examples.keepRules
           (bytes_of_string (double.marshalCloudwatch examples.dataMessage)) []
           examples.dataMessage initial 1
           {| CloudwatchLogEvent.ID := "2";
              CloudwatchLogEvent.Timestamp := 1700000000002;
              CloudwatchLogEvent.Message := "second line" |}).
  - vm_compute. reflexivity.
  - reflexivity.
Defined.

(** X14 on a gzipped record that is not JSON. *)
Lemma serveRecord_cloudwatch_not_json_witness :
  ∃ σ', serveRecord examples.keepRules examples.helloBatch 0 more_examples.notJsonRecord
          examples.loopStart
        = (Done false, σ')
    ∧ recordsReceived σ' = Inc "cloudwatch-logs" (recordsReceived examples.loopStart)
    ∧ errors σ' = Inc "handle_cw" (errors examples.loopStart)
    ∧ sent σ' = sent examples.loopStart
    ∧ builders σ' = builders examples.loopStart
    ∧ ResponseWriter.Status (w σ') = Some StatusBadRequest
    ∧ ResponseWriter.Written (w σ')
      = errorResponse (FirehoseRequest.RequestID examples.helloBatch)
          (Time_Unix (time_Now (clock examples.loopStart)))
          "failed to handle cloudwatch record".
Proof.
  apply (serveRecord_cloudwatch_not_json examples.keepRules examples.helloBatch 0%nat
           more_examples.notJsonRecord (bytes_of_string "not json")
           (commonBuilder (examples.post examples.helloBatch))
           "invalid character looking for beginning of value" examples.loopStart).
  - vm_compute. reflexivity.
  - vm_compute. reflexivity.
  - reflexivity.
  - reflexivity.
Defined.
